(** * pyseto: the v2 adapters (pyseto/versions/v2.py)

    A shallow embedding of [V2Local] and [V2Public] together with the parts of
    the package they call.  Python [bytes] are lists of [byte]; Python [str] is
    a Rocq [string] (the bytes of its UTF-8 form, every string handled here
    being ASCII).  Exceptions are values of [exn]; code that draws entropy or
    calls a cryptographic routine runs in the monad [M], which threads the
    entropy source and records each call made to an external primitive. *)

From Stdlib Require Import Ascii String DecimalString Bool Arith ZArith NArith Lia List.
From Stdlib.Strings Require Import Byte.
Import ListNotations.

Set Implicit Arguments.

Local Open Scope string_scope.
Local Open Scope list_scope.

Abbreviation bytes := (list byte) (only parsing).
Abbreviation str := string (only parsing).

(** [bytes] literals are written as strings. *)
Definition b (s : string) : bytes := list_byte_of_string s.

Definition bytes_eqb (x y : bytes) : bool :=
  if list_eq_dec Byte.byte_eq_dec x y then true else false.

(** Truthiness of a Python [bytes] object: [if x:] holds when [x] is not empty. *)
Definition truthy (x : bytes) : bool :=
  match x with [] => false | _ :: _ => true end.

(** ** Python slices *)

Module Slice.

(** [x[start:stop]] for integer bounds: a negative bound counts from the
    end, and every bound is clipped to [0 .. len]. *)
Definition clip (len i : Z) : Z :=
  if (i <? 0)%Z then Z.max 0 (len + i) else Z.min i len.

Definition slice {A} (x : list A) (start stop : Z) : list A :=
  let len := Z.of_nat (length x) in
  let s := clip len start in
  let e := clip len stop in
  firstn (Z.to_nat (e - s)) (skipn (Z.to_nat s) x).

(** [x[start:]] *)
Definition slice_from {A} (x : list A) (start : Z) : list A :=
  slice x start (Z.of_nat (length x)).

(** [x[:stop]] *)
Definition slice_to {A} (x : list A) (stop : Z) : list A :=
  slice x 0 stop.

End Slice.

(** ** Exceptions

    An exception is its class and its message; [From e cause] is [e] as
    [raise e from cause] raises it, with [cause] stored in [__cause__]. *)

Inductive exn : Type :=
| ValueError (msg : string)
| IndexError (msg : string)
| EncryptError (msg : string)
| DecryptError (msg : string)
| SignError (msg : string)
| VerifyError (msg : string)
| LibraryError (msg : string)
| From (e cause : exn).

Inductive result (A : Type) : Type :=
| Ok (a : A)
| Raise (e : exn).

Arguments Ok {A} a.
Arguments Raise {A} e.

(** Sequencing of code that can raise but touches nothing outside. *)
Definition rbind {A B} (r : result A) (k : A -> result B) : result B :=
  match r with
  | Ok a => k a
  | Raise e => Raise e
  end.

(** ** The world outside the package

    [entropy] is the tape the operating system's random source will deliver,
    [cursor] the number of bytes already drawn, and [trace] the calls made so
    far to external primitives, oldest first. *)

Inductive call : Type :=
| TokenBytes (n : nat)
| Blake2b (key : bytes) (digest_size : nat) (data : bytes)
| ChaCha20Poly1305Seal (key nonce aad plaintext : bytes)
| ChaCha20Poly1305Open (key nonce aad ciphertext tag : bytes)
| Ed25519Sign (private_key message : bytes)
| Ed25519Verify (public_key signature message : bytes).

Record World : Type := mkWorld {
  entropy : nat -> byte;
  cursor : nat;
  trace : list call
}.

Definition M (A : Type) : Type := World -> result A * World.

Definition ret {A} (a : A) : M A := fun w => (Ok a, w).

Definition bind {A B} (m : M A) (k : A -> M B) : M B :=
  fun w => match m w with
           | (Ok a, w') => k a w'
           | (Raise e, w') => (Raise e, w')
           end.

Definition raise {A} (e : exn) : M A := fun w => (Raise e, w).

(** [try: body  except Exception as err: raise e from err] *)
Definition try_except {A} (body : M A) (e : exn) : M A :=
  fun w => match body w with
           | (Ok a, w') => (Ok a, w')
           | (Raise err, w') => (Raise (From e err), w')
           end.

Definition lift {A} (r : result A) : M A := fun w => (r, w).

Definition log (c : call) : M unit :=
  fun w => (Ok tt, mkWorld (entropy w) (cursor w) (trace w ++ [c])).

Declare Scope py_scope.
Delimit Scope py_scope with py.
Notation "x <- m ;; k" := (bind m (fun x => k))
  (at level 61, m at next level, right associativity) : py_scope.
Notation "m ;;; k" := (bind m (fun _ => k))
  (at level 61, right associativity) : py_scope.
Notation "x <-- r ;; k" := (rbind r (fun x => k))
  (at level 61, r at next level, right associativity) : py_scope.
Local Open Scope py_scope.

(** The next [n] bytes of the tape. *)
Definition peek (w : World) (n : nat) : bytes :=
  map (fun i => entropy w (cursor w + i)) (seq 0 n).

(** [secrets.token_bytes(n)] *)
Definition token_bytes (n : nat) : M bytes :=
  fun w =>
    (Ok (peek w n),
     mkWorld (entropy w) (cursor w + n) (trace w ++ [TokenBytes n])).

(** ** Helpers of pyseto/utils.py *)

Module Utils.

Definition byte_of_N (n : N) : byte :=
  match Byte.of_N (n mod 256) with Some x => x | None => x00 end.

Fixpoint le_bytes (width : nat) (n : N) : bytes :=
  match width with
  | O => []
  | S w => byte_of_N n :: le_bytes w (n / 256)
  end.

(** Modelled from the spec: the helper of [utils.pae] that writes a length
    is not among the sources.  Section 4.1: 8 bytes, little-endian. *)
Definition le64 (n : N) : bytes := le_bytes 8 n.

(** Modelled from the spec: [utils.pae] is not among the sources.  Section
    4.1: the 8-byte little-endian count of parts, followed by, for each
    part, an 8-byte little-endian length then the raw bytes; total. *)
Definition pae (pieces : list bytes) : bytes :=
  le64 (N.of_nat (length pieces))
    ++ flat_map (fun piece => le64 (N.of_nat (length piece)) ++ piece) pieces.

(** *** base64url without padding

    Modelled from the spec: utils.py is not among the sources.  Section 6
    fixes the format, base64url without padding; the definitions up to
    [base64url_decode] spell it out on the bits of the bytes. *)

Definition sextet : Type := (bool * bool * bool * bool * bool * bool)%type.

Definition alphabet : bytes :=
  b "ABCDEFGHIJKLMNOPQRSTUVWXYZabcdefghijklmnopqrstuvwxyz0123456789-_".

Definition bit (x : bool) : nat := if x then 1 else 0.

(** A sextet is written most significant bit first. *)
Definition sextet_value (s : sextet) : nat :=
  let '(s5, s4, s3, s2, s1, s0) := s in
  32 * bit s5 + 16 * bit s4 + 8 * bit s3 + 4 * bit s2 + 2 * bit s1 + bit s0.

Definition sextet_of_value (n : nat) : sextet :=
  (Nat.testbit n 5, Nat.testbit n 4, Nat.testbit n 3,
   Nat.testbit n 2, Nat.testbit n 1, Nat.testbit n 0).

Definition char_of_sextet (s : sextet) : byte :=
  nth (sextet_value s) alphabet x00.

Fixpoint position (c : byte) (l : bytes) : option nat :=
  match l with
  | [] => None
  | x :: l' => if Byte.eqb c x then Some 0 else option_map S (position c l')
  end.

Definition sextet_of_char (c : byte) : option sextet :=
  option_map sextet_of_value (position c alphabet).

(** The bits of a byte, most significant first. *)
Definition bits8 (x : byte)
  : bool * bool * bool * bool * bool * bool * bool * bool :=
  let '(x0, (x1, (x2, (x3, (x4, (x5, (x6, x7))))))) := Byte.to_bits x in
  (x7, x6, x5, x4, x3, x2, x1, x0).

Definition byte_of_bits8 (x7 x6 x5 x4 x3 x2 x1 x0 : bool) : byte :=
  Byte.of_bits (x0, (x1, (x2, (x3, (x4, (x5, (x6, x7))))))).

Definition encode3 (x y z : byte) : bytes :=
  let '(x7, x6, x5, x4, x3, x2, x1, x0) := bits8 x in
  let '(y7, y6, y5, y4, y3, y2, y1, y0) := bits8 y in
  let '(z7, z6, z5, z4, z3, z2, z1, z0) := bits8 z in
  [char_of_sextet (x7, x6, x5, x4, x3, x2);
   char_of_sextet (x1, x0, y7, y6, y5, y4);
   char_of_sextet (y3, y2, y1, y0, z7, z6);
   char_of_sextet (z5, z4, z3, z2, z1, z0)].

Definition encode2 (x y : byte) : bytes :=
  let '(x7, x6, x5, x4, x3, x2, x1, x0) := bits8 x in
  let '(y7, y6, y5, y4, y3, y2, y1, y0) := bits8 y in
  [char_of_sextet (x7, x6, x5, x4, x3, x2);
   char_of_sextet (x1, x0, y7, y6, y5, y4);
   char_of_sextet (y3, y2, y1, y0, false, false)].

Definition encode1 (x : byte) : bytes :=
  let '(x7, x6, x5, x4, x3, x2, x1, x0) := bits8 x in
  [char_of_sextet (x7, x6, x5, x4, x3, x2);
   char_of_sextet (x1, x0, false, false, false, false)].

(** Modelled from the spec: [utils.base64url_encode] is not among the
    sources.  Section 6: base64url, no padding (the alphabet of RFC 4648,
    section 5); three bytes become four characters, a tail of one or two
    bytes becomes two or three. *)
Fixpoint base64url_encode (v : bytes) : bytes :=
  match v with
  | x :: y :: z :: rest => encode3 x y z ++ base64url_encode rest
  | [x; y] => encode2 x y
  | [x] => encode1 x
  | [] => []
  end.

Definition decode_chars (cs : bytes) : option (list sextet) :=
  fold_right
    (fun c acc =>
       match sextet_of_char c, acc with
       | Some s, Some l => Some (s :: l)
       | _, _ => None
       end)
    (Some []) cs.

Fixpoint decode_sextets (l : list sextet) : option bytes :=
  match l with
  | (a5, a4, a3, a2, a1, a0) :: (b5, b4, b3, b2, b1, b0)
      :: (c5, c4, c3, c2, c1, c0) :: (d5, d4, d3, d2, d1, d0) :: rest =>
      option_map
        (fun tl =>
           byte_of_bits8 a5 a4 a3 a2 a1 a0 b5 b4
             :: byte_of_bits8 b3 b2 b1 b0 c5 c4 c3 c2
             :: byte_of_bits8 c1 c0 d5 d4 d3 d2 d1 d0 :: tl)
        (decode_sextets rest)
  | [(a5, a4, a3, a2, a1, a0); (b5, b4, b3, b2, b1, b0);
     (c5, c4, c3, c2, c1, c0)] =>
      Some [byte_of_bits8 a5 a4 a3 a2 a1 a0 b5 b4;
            byte_of_bits8 b3 b2 b1 b0 c5 c4 c3 c2]
  | [(a5, a4, a3, a2, a1, a0); (b5, b4, b3, b2, b1, b0)] =>
      Some [byte_of_bits8 a5 a4 a3 a2 a1 a0 b5 b4]
  | [_] => None
  | [] => Some []
  end.

(** Modelled from the spec: [utils.base64url_decode] is not among the
    sources.  Section 4.5: the inverse of the encoding; a segment that is
    not base64url fails with ValueError.  Only its values on encoder output
    are used below. *)
Definition base64url_decode (v : str) : result bytes :=
  match decode_chars (list_byte_of_string v) with
  | Some l =>
      match decode_sextets l with
      | Some x => Ok x
      | None => Raise (ValueError "Invalid base64url string.")
      end
  | None => Raise (ValueError "Invalid base64url string.")
  end.

(** [bytes.decode("utf-8")] on ASCII content, [str.encode("utf-8")]. *)
Definition decode_utf8 (x : bytes) : str := string_of_list_byte x.
Definition encode_utf8 (s : str) : bytes := list_byte_of_string s.

(** [s.split(sep)] for a one-character separator. *)
Fixpoint split (sep : ascii) (s : str) : list str :=
  match s with
  | EmptyString => [EmptyString]
  | String c rest =>
      if Ascii.eqb c sep then EmptyString :: split sep rest
      else match split sep rest with
           | h :: t => String c h :: t
           | [] => [String c EmptyString]
           end
  end.

(** [l[i]]: IndexError past the end. *)
Definition item {A} (l : list A) (i : nat) : result A :=
  match nth_error l i with
  | Some x => Ok x
  | None => Raise (IndexError "list index out of range")
  end.

End Utils.

(** ** The cryptographic libraries

    hashlib, Cryptodome and cryptography are used through their documented
    entry points.  A routine that can raise returns a [result]; everything
    these routines compute is left open. *)

Class Primitives : Type := {
  (** [hashlib.blake2b(key=key, digest_size=n)], [update(data)], [digest()];
      an absent key is the empty key. *)
  blake2b_digest : bytes -> nat -> bytes -> result bytes;
  (** [ChaCha20_Poly1305.new(key, nonce)], [update(aad)],
      [encrypt_and_digest(plaintext)]: ciphertext and tag. *)
  aead_seal : bytes -> bytes -> bytes -> bytes -> result (bytes * bytes);
  (** [ChaCha20_Poly1305.new(key, nonce)], [update(aad)],
      [decrypt_and_verify(ciphertext, tag)]. *)
  aead_open : bytes -> bytes -> bytes -> bytes -> bytes -> result bytes;
  (** [Ed25519PrivateKey.public_key()], on raw key bytes. *)
  ed25519_public : bytes -> bytes;
  (** [Ed25519PrivateKey.sign(data)]. *)
  ed25519_sign : bytes -> bytes -> result bytes;
  (** [Ed25519PublicKey.verify(signature, data)]: [false] is InvalidSignature. *)
  ed25519_verify : bytes -> bytes -> bytes -> bool
}.

(** What the libraries promise about these routines. *)

Definition Blake2bTotal (P : Primitives) : Prop :=
  forall key n data,
    length key <= 64 -> 1 <= n <= 64 ->
    exists d, blake2b_digest key n data = Ok d /\ length d = n.

Definition SealTotal (P : Primitives) : Prop :=
  forall key nonce aad plaintext,
    length key = 32 -> length nonce = 24 ->
    exists c tag,
      aead_seal key nonce aad plaintext = Ok (c, tag) /\ length tag = 16.

Definition OpenSeal (P : Primitives) : Prop :=
  forall key nonce aad plaintext c tag,
    aead_seal key nonce aad plaintext = Ok (c, tag) ->
    aead_open key nonce aad c tag = Ok plaintext.

Definition SignTotal (P : Primitives) : Prop :=
  forall seed message,
    length seed = 32 ->
    exists sig, ed25519_sign seed message = Ok sig /\ length sig = 64.

Definition VerifySign (P : Primitives) : Prop :=
  forall seed message sig,
    ed25519_sign seed message = Ok sig ->
    ed25519_verify (ed25519_public seed) sig message = true.



Section Calls.
Context {P : Primitives}.

Definition hashlib_blake2b (key : bytes) (digest_size : nat) (data : bytes)
  : M bytes :=
  log (Blake2b key digest_size data) ;;;
  lift (blake2b_digest key digest_size data).

(** The cipher object of Cryptodome: what [new] and [update] have stored. *)
Record cipher : Type := mkCipher {
  cipher_key : bytes;
  cipher_nonce : bytes;
  cipher_aad : bytes
}.

Definition ChaCha20_Poly1305_new (key nonce : bytes) : cipher :=
  mkCipher key nonce [].

Definition cipher_update (c : cipher) (data : bytes) : cipher :=
  mkCipher (cipher_key c) (cipher_nonce c) (cipher_aad c ++ data).

Definition encrypt_and_digest (c : cipher) (plaintext : bytes)
  : M (bytes * bytes) :=
  log (ChaCha20Poly1305Seal (cipher_key c) (cipher_nonce c) (cipher_aad c)
         plaintext) ;;;
  lift (aead_seal (cipher_key c) (cipher_nonce c) (cipher_aad c) plaintext).

Definition decrypt_and_verify (c : cipher) (ciphertext tag : bytes)
  : M bytes :=
  log (ChaCha20Poly1305Open (cipher_key c) (cipher_nonce c) (cipher_aad c)
         ciphertext tag) ;;;
  lift (aead_open (cipher_key c) (cipher_nonce c) (cipher_aad c)
          ciphertext tag).

Definition private_key_sign (seed data : bytes) : M bytes :=
  log (Ed25519Sign seed data) ;;;
  lift (ed25519_sign seed data).

Definition public_key_verify (raw signature data : bytes) : M unit :=
  log (Ed25519Verify raw signature data) ;;;
  if ed25519_verify raw signature data then ret tt
  else raise (LibraryError "InvalidSignature").

End Calls.

(** ** Key objects *)

(** An Ed25519 key object of the cryptography library, by its raw bytes. *)
Inductive ed25519_key : Type :=
| Ed25519PublicKey (raw : bytes)
| Ed25519PrivateKey (seed : bytes).

(** What a caller may hand to a constructor typed [Any]: an Ed25519 key
    object, or some other object, of which only its truthiness matters. *)
Inductive py_object : Type :=
| Ed25519 (k : ed25519_key)
| NotEd25519 (truth : bool).

(** [Ed25519PublicKey.from_public_bytes], [Ed25519PrivateKey.from_private_bytes]:
    both take exactly 32 bytes. *)
Definition from_public_bytes (data : bytes) : result ed25519_key :=
  if (length data =? 32)%nat then Ok (Ed25519PublicKey data)
  else Raise (ValueError "An Ed25519 public key is 32 bytes long").

Definition from_private_bytes (data : bytes) : result ed25519_key :=
  if (length data =? 32)%nat then Ok (Ed25519PrivateKey data)
  else Raise (ValueError "An Ed25519 private key is 32 bytes long").

(** The argument of a local key constructor, typed [Union[str, bytes]]. *)
Inductive material : Type :=
| Bytes (x : bytes)
| Str (s : str).

Module KeyInterface.

(** Modelled from the spec: the class [KeyInterface] (key_interface.py) is
    not among the sources.  Section 3 lists what a key owns; the fields
    carry the names under which v2.py reads them. *)
Record t (K : Type) : Type := mk {
  _version : nat;
  _type : str;
  _header : bytes;
  _key : K
}.

(** The property [header] gives the field. *)
Abbreviation header := _header (only parsing).

Definition str_of_int (n : nat) : str :=
  NilZero.string_of_uint (Nat.to_uint n).

(** Modelled from the spec: [KeyInterface.__init__] (key_interface.py) is
    not among the sources.  Section 3: a key owns its version, its purpose,
    the key itself, and the header "v{version}.{purpose}."; the tests name
    the error of a missing key, "key must be specified.". *)
Definition __init__ {K} (truth : K -> bool) (version : nat) (type : str) (key : K)
  : result (t K) :=
  if negb (truth key) then Raise (ValueError "key must be specified.")
  else
    Ok (mk version type
          (Utils.encode_utf8
             ("v" ++ str_of_int version ++ "." ++ type ++ ".")%string)
          key).

End KeyInterface.

Module LocalKey.

Import KeyInterface.

(** Modelled from the spec: [LocalKey.__init__] (local_key.py) is not among
    the sources.  The raw key bytes of section 3 are the argument itself,
    or its UTF-8 form when it is a [str]. *)
Definition __init__ (version : nat) (type : str) (key : material)
  : result (t bytes) :=
  let bkey := match key with
              | Bytes x => x
              | Str s => Utils.encode_utf8 s
              end in
  KeyInterface.__init__ truthy version type bkey.

(** Modelled from the spec: [LocalKey.to_paserk] (local_key.py) is not
    among the sources.  Section 4.4: "k{version}.local." followed by the
    base64url form of the raw material. *)
Definition to_paserk (self : t bytes) : str :=
  ("k" ++ str_of_int (_version self) ++ ".local."
     ++ Utils.decode_utf8 (Utils.base64url_encode (_key self)))%string.

End LocalKey.

(** ** class V2Local(LocalKey) *)

Module V2Local.

Import KeyInterface.

Definition t : Type := KeyInterface.t bytes.

Definition __init__ (key : material) : result t :=
  self <-- LocalKey.__init__ 2 "local" key ;;
  if negb (length (_key self) =? 32)%nat
  then Raise (ValueError "key must be 32 bytes long.")
  else Ok self.

Definition from_paserk (paserk : str) : result t :=
  let frags := Utils.split "." paserk in
  f0 <-- Utils.item frags 0 ;;
  if negb (f0 =? "k2")%string
  then Raise (ValueError "Invalid PASERK version for a v2.local key.")
  else
    f1 <-- Utils.item frags 1 ;;
    if negb (f1 =? "local")%string
    then Raise (ValueError "Invalid PASERK type for a v2.local key.")
    else
      f2 <-- Utils.item frags 2 ;;
      x <-- Utils.base64url_decode f2 ;;
      __init__ (Bytes x).

Section Methods.
Context {P : Primitives}.

Definition _generate_nonce (key msg : bytes) : M bytes :=
  key <- (if truthy key
          then if negb (length key =? 24)%nat
               then raise (ValueError "nonce must be 24 bytes long.")
               else ret key
          else token_bytes 24) ;;
  try_except (hashlib_blake2b key 24 msg)
    (EncryptError "Failed to generate internal nonce.").

Definition encrypt (self : t) (payload footer implicit_assertion nonce : bytes)
  : M bytes :=
  n <- _generate_nonce nonce payload ;;
  let pre_auth := Utils.pae [header self; n; footer] in
  try_except
    (let cipher := ChaCha20_Poly1305_new (_key self) n in
     let cipher := cipher_update cipher pre_auth in
     ct <- encrypt_and_digest cipher payload ;;
     let '(c, tag) := ct in
     let token := _header self ++ Utils.base64url_encode (n ++ c ++ tag) in
     let token := if truthy footer
                  then token ++ b "." ++ Utils.base64url_encode footer
                  else token in
     ret token)
    (EncryptError "Failed to encrypt.").

Definition decrypt (self : t) (payload footer implicit_assertion : bytes)
  : M bytes :=
  let n := Slice.slice payload 0 24 in
  let c := Slice.slice payload 24 (Z.of_nat (length payload) - 16) in
  let tag := Slice.slice_from payload (-16) in
  let pre_auth := Utils.pae [header self; n; footer] in
  try_except
    (let cipher := ChaCha20_Poly1305_new (_key self) n in
     let cipher := cipher_update cipher pre_auth in
     decrypt_and_verify cipher c tag)
    (DecryptError "Failed to decrypt.").

Definition to_paserk_id (self : t) : M str :=
  let h := "k2.lid." in
  let p := LocalKey.to_paserk self in
  d <- hashlib_blake2b [] 33 (Utils.encode_utf8 (h ++ p)%string) ;;
  ret (h ++ Utils.decode_utf8 (Utils.base64url_encode d))%string.

End Methods.

End V2Local.

(** ** class V2Public(KeyInterface) *)

Module V2Public.

Record t : Type := mk {
  _version : nat;
  _type : str;
  _header : bytes;
  _key : ed25519_key;
  _sig_size : nat
}.

Abbreviation header := _header (only parsing).

Definition object_truth (o : py_object) : bool :=
  match o with
  | Ed25519 _ => true
  | NotEd25519 truth => truth
  end.

(** The instance holds an Ed25519 key object or does not exist. *)
Definition __init__ (key : py_object) : result t :=
  self <-- KeyInterface.__init__ object_truth 2 "public" key ;;
  let sig_size := 64 in
  match KeyInterface._key self with
  | Ed25519 k =>
      Ok (mk (KeyInterface._version self) (KeyInterface._type self)
            (KeyInterface._header self) k sig_size)
  | NotEd25519 _ => Raise (ValueError "The key is not Ed25519 key.")
  end.

Definition from_paserk (paserk : str) : result t :=
  let frags := Utils.split "." paserk in
  f0 <-- Utils.item frags 0 ;;
  if negb (f0 =? "k2")%string
  then Raise (ValueError "Invalid PASERK version for a v2.public key.")
  else
    f1 <-- Utils.item frags 1 ;;
    if (f1 =? "public")%string then
      f2 <-- Utils.item frags 2 ;;
      x <-- Utils.base64url_decode f2 ;;
      k <-- from_public_bytes x ;;
      __init__ (Ed25519 k)
    else if (f1 =? "secret")%string then
      f2 <-- Utils.item frags 2 ;;
      x <-- Utils.base64url_decode f2 ;;
      k <-- from_private_bytes x ;;
      __init__ (Ed25519 k)
    else Raise (ValueError "Invalid PASERK type for a v2.public key.").

(** [public_bytes(Raw, Raw)] and [private_bytes(Raw, Raw, NoEncryption())]
    give back the raw bytes of the object. *)
Definition to_paserk (self : t) : str :=
  match _key self with
  | Ed25519PublicKey raw =>
      ("k2.public." ++ Utils.decode_utf8 (Utils.base64url_encode raw))%string
  | Ed25519PrivateKey seed =>
      ("k2.secret." ++ Utils.decode_utf8 (Utils.base64url_encode seed))%string
  end.

Section Methods.
Context {P : Primitives}.

Definition sign (self : t) (payload footer implicit_assertion : bytes)
  : M bytes :=
  match _key self with
  | Ed25519PublicKey _ =>
      raise (ValueError "A public key cannot be used for signing.")
  | Ed25519PrivateKey seed =>
      let m2 := Utils.pae [header self; payload; footer] in
      try_except (private_key_sign seed m2) (SignError "Failed to sign.")
  end.

Definition verify (self : t) (payload footer implicit_assertion : bytes)
  : M bytes :=
  if (length payload <=? _sig_size self)%nat
  then raise (ValueError "Invalid payload.")
  else
    let sig := Slice.slice_from payload (- Z.of_nat (_sig_size self)) in
    let m := Slice.slice_to payload
               (Z.of_nat (length payload) - Z.of_nat (_sig_size self)) in
    let k := match _key self with
             | Ed25519PublicKey raw => raw
             | Ed25519PrivateKey seed => ed25519_public seed
             end in
    let m2 := Utils.pae [header self; m; footer] in
    try_except (public_key_verify k sig m2)
      (VerifyError "Failed to verify.") ;;;
    ret m.

Definition to_paserk_id (self : t) : M str :=
  let p := to_paserk self in
  let h := match _key self with
           | Ed25519PublicKey _ => "k2.pid."
           | Ed25519PrivateKey _ => "k2.sid."
           end in
  d <- hashlib_blake2b [] 33 (Utils.encode_utf8 (h ++ p)%string) ;;
  ret (h ++ Utils.decode_utf8 (Utils.base64url_encode d))%string.

End Methods.

End V2Public.

(** ** class V4Local(LocalKey), as the specification describes it *)

Module V4Local.

Import KeyInterface.

Definition t : Type := KeyInterface.t bytes.

(** Modelled from the spec: [V4Local.__init__] (versions/v4.py) is not among
    the sources.  Sections 3 and 4.3: the material of a v4 local key is
    exactly 32 bytes, as for v2, and [Key.new] fails with a length/type
    error otherwise; the constructor is written after [V2Local.__init__],
    the error being the ValueError the package raises there. *)
Definition __init__ (key : material) : result t :=
  self <-- LocalKey.__init__ 4 "local" key ;;
  if negb (length (_key self) =? 32)%nat
  then Raise (ValueError "key must be 32 bytes long.")
  else Ok self.

Section Methods.
(** Everything [encrypt] does once it holds its 32-byte seed. *)
Variable seal_with_seed : t -> bytes -> bytes -> bytes -> bytes -> M bytes.

(** Modelled from the spec: [V4Local.encrypt] (versions/v4.py) is not
    among the sources.  Section 8: a caller's nonce seed of any length
    other than the version's (32 bytes here, "nonce must be 32 bytes
    long." in tests/test_v4.py) fails before any cryptographic call;
    section 4.2: without a seed, random bytes of that length are drawn. *)
Definition encrypt (self : t) (payload footer implicit_assertion nonce : bytes)
  : M bytes :=
  nonce <- (if truthy nonce
            then if negb (length nonce =? 32)%nat
                 then raise (ValueError "nonce must be 32 bytes long.")
                 else ret nonce
            else token_bytes 32) ;;
  seal_with_seed self nonce payload footer implicit_assertion.

End Methods.

End V4Local.

(** ** Key (key.py) and the top level (pyseto.py) *)

Inductive v2_key : Type :=
| Local (k : V2Local.t)
| Public (k : V2Public.t).

Module Key.

(** Modelled from the spec: [Key.from_paserk] (key.py) is not among the
    sources.  Section 4.3: it reads the version and type of the PASERK
    string and constructs the key through the class of that version and
    type. *)
Definition from_paserk (paserk : str) : result v2_key :=
  let frags := Utils.split "." paserk in
  f0 <-- Utils.item frags 0 ;;
  f1 <-- Utils.item frags 1 ;;
  if (f0 =? "k2")%string then
    if (f1 =? "local")%string then
      k <-- V2Local.from_paserk paserk ;; Ok (Local k)
    else
      k <-- V2Public.from_paserk paserk ;; Ok (Public k)
  else Raise (ValueError "Invalid PASERK version.").

Definition to_paserk (k : v2_key) : str :=
  match k with
  | Local k => LocalKey.to_paserk k
  | Public k => V2Public.to_paserk k
  end.

End Key.

Module Pyseto.

Section TopLevel.
Context {P : Primitives}.

Definition header (k : v2_key) : bytes :=
  match k with
  | Local k => KeyInterface._header k
  | Public k => V2Public._header k
  end.

(** Modelled from the spec: [encode] (pyseto.py) is not among the sources.
    Sections 4.2 and 4.5: a local key encrypts, and [V2Local.encrypt]
    frames the token itself; a public key signs, the payload bytes are
    payload || signature, and the token is the header, the base64url
    payload bytes and, when the footer is not empty, "." and the
    base64url footer. *)
Definition encode (k : v2_key) (payload footer implicit_assertion nonce : bytes)
  : M bytes :=
  match k with
  | Local k => V2Local.encrypt k payload footer implicit_assertion nonce
  | Public k =>
      sig <- V2Public.sign k payload footer implicit_assertion ;;
      let token :=
        V2Public._header k ++ Utils.base64url_encode (payload ++ sig) in
      ret (if truthy footer
           then token ++ b "." ++ Utils.base64url_encode footer
           else token)
  end.

(** Modelled from the spec: [decode] (pyseto.py) is not among the sources.
    Section 4.5: the token has three or four dot-separated segments;
    version and purpose must be the header of the key, else ValueError;
    the payload segment is base64url-decoded; a missing footer segment is
    the empty footer; section 6: the result is (payload, footer). *)
Definition decode (k : v2_key) (token implicit_assertion : bytes)
  : M (bytes * bytes) :=
  let t := Utils.split "." (Utils.decode_utf8 token) in
  if negb ((length t =? 3)%nat || (length t =? 4)%nat)
  then raise (ValueError "token is invalid.")
  else
    v <- lift (Utils.item t 0) ;;
    p <- lift (Utils.item t 1) ;;
    if negb (bytes_eqb (Utils.encode_utf8 (v ++ "." ++ p ++ ".")%string)
               (header k))
    then raise (ValueError "unsupported or unknown version and purpose.")
    else
      seg <- lift (Utils.item t 2) ;;
      payload <- lift (Utils.base64url_decode seg) ;;
      footer <- (if (length t =? 4)%nat
                 then fseg <- lift (Utils.item t 3) ;;
                      lift (Utils.base64url_decode fseg)
                 else ret []) ;;
      message <- match k with
                 | Local k =>
                     V2Local.decrypt k payload footer implicit_assertion
                 | Public k =>
                     V2Public.verify k payload footer implicit_assertion
                 end ;;
      ret (message, footer).

End TopLevel.

End Pyseto.

(** ** A runnable stand-in for the libraries

    Not cryptography: a keyed checksum in place of the hash, the tag and the
    signature, and the reversed plaintext as ciphertext.  Like [new] of
    Cryptodome, sealing and opening first refuse a key or a nonce of the
    wrong length, with an exception of their own; opening then raises the
    exception of a failed tag check.  It keeps the promises listed above
    that the runs below rely on, so the embedding can be run on concrete
    inputs. *)

Module Standin.

Definition mix (x : bytes) : N :=
  fold_left (fun acc c => (acc * 257 + Byte.to_N c + 1) mod 2 ^ 64)%N x 0%N.

Definition checksum (n : nat) (x : bytes) : bytes :=
  Utils.le_bytes n (mix x).

Definition blake2b (key : bytes) (n : nat) (data : bytes) : result bytes :=
  if ((length key <=? 64) && (1 <=? n) && (n <=? 64))%nat
  then Ok (checksum n (key ++ x00 :: data))
  else Raise (LibraryError "blake2b: bad key or digest size").

Definition tag_of (key nonce aad text : bytes) : bytes :=
  checksum 16 (key ++ x01 :: nonce ++ x02 :: aad ++ x03 :: text).

Definition seal (key nonce aad plaintext : bytes) : result (bytes * bytes) :=
  if ((length key =? 32) && (length nonce =? 24))%nat
  then Ok (rev plaintext, tag_of key nonce aad plaintext)
  else Raise (LibraryError "ChaCha20_Poly1305: bad key or nonce length").

Definition open (key nonce aad ciphertext tag : bytes) : result bytes :=
  if ((length key =? 32) && (length nonce =? 24))%nat
  then if bytes_eqb tag (tag_of key nonce aad (rev ciphertext))
       then Ok (rev ciphertext)
       else Raise (LibraryError "MAC check failed")
  else Raise (LibraryError "ChaCha20_Poly1305: bad key or nonce length").

Definition public (seed : bytes) : bytes := rev seed.

Definition signature_of (seed message : bytes) : bytes :=
  checksum 64 (seed ++ x04 :: message).

Definition sign (seed message : bytes) : result bytes :=
  Ok (signature_of seed message).

Definition verify (raw sig message : bytes) : bool :=
  bytes_eqb sig (signature_of (rev raw) message).

#[export] Instance primitives : Primitives := {|
  blake2b_digest := blake2b;
  aead_seal := seal;
  aead_open := open;
  ed25519_public := public;
  ed25519_sign := sign;
  ed25519_verify := verify
|}.

(** A world whose random source delivers 0x2a forever. *)
Definition world0 : World := mkWorld (fun _ => x2a) 0 [].

End Standin.

(** ** Vocabulary of the statements *)

(** A byte string without the separator of tokens and PASERK strings. *)
Definition no_dot (l : bytes) : Prop := Forall (fun c => c <> "."%byte) l.

(** The raw bytes a local key is built from. *)
Definition material_bytes (key : material) : bytes :=
  match key with
  | Bytes x => x
  | Str s => Utils.encode_utf8 s
  end.

(** The world after further calls to primitives. *)
Definition append_call (w : World) (cs : list call) : World :=
  mkWorld (entropy w) (cursor w) (trace w ++ cs).

(** The token of section 4.5: header, base64url payload bytes and, when the
    footer is not empty, "." and the base64url footer. *)
Definition frame (header payload footer : bytes) : bytes :=
  let token := header ++ Utils.base64url_encode payload in
  if truthy footer
  then token ++ b "." ++ Utils.base64url_encode footer
  else token.

(** The outcome of a library call inside [try ... except Exception as
    err: raise e from err]. *)
Definition wrap {A} (e : exn) (r : result A) : result A :=
  match r with
  | Ok a => Ok a
  | Raise err => Raise (From e err)
  end.

(** The key [verify] checks under. *)
Definition verifying_key {P : Primitives} (k : ed25519_key) : bytes :=
  match k with
  | Ed25519PublicKey raw => raw
  | Ed25519PrivateKey seed => ed25519_public seed
  end.

Section Vocabulary.
Context {P : Primitives}.

(** What the adapter of the key does with the decoded payload bytes. *)
Definition adapter_open (k : v2_key) (payload footer ia : bytes) : M bytes :=
  match k with
  | Local k => V2Local.decrypt k payload footer ia
  | Public k => V2Public.verify k payload footer ia
  end.

(** The identifier built from a prefix and a PASERK string. *)
Definition paserk_id (h p : str) (w : World) : result str * World :=
  let data := Utils.encode_utf8 (h ++ p)%string in
  (match blake2b_digest [] 33 data with
   | Ok d =>
       Ok (h ++ Utils.decode_utf8 (Utils.base64url_encode d))%string
   | Raise e => Raise e
   end,
   append_call w [Blake2b [] 33 data]).

Definition id_prefix (k : ed25519_key) : str :=
  match k with
  | Ed25519PublicKey _ => "k2.pid."
  | Ed25519PrivateKey _ => "k2.sid."
  end.

End Vocabulary.

(** Sample keys, for running the embedding. *)
Module Samples.

Definition zeros : V2Local.t :=
  KeyInterface.mk 2 "local" (b "v2.local.") (repeat x00 32).

Definition ones : V2Local.t :=
  KeyInterface.mk 2 "local" (b "v2.local.") (repeat x01 32).

Definition signer : V2Public.t :=
  V2Public.mk 2 "public" (b "v2.public.")
    (Ed25519PrivateKey (repeat x07 32)) 64.

Definition verifier : V2Public.t :=
  V2Public.mk 2 "public" (b "v2.public.")
    (Ed25519PublicKey (rev (repeat x07 32))) 64.

Definition hello : bytes := b "Hello world!".

(** The payload bytes nonce || ciphertext || tag that [V2Local.encrypt]
    frames, on the stand-in, for [hello] under [zeros] with no footer and
    the seed of 24 bytes 0x2a. *)
Definition sealed_hello : bytes :=
  let n := Standin.checksum 24 (repeat x2a 24 ++ x00 :: hello) in
  n ++ rev hello
    ++ Standin.tag_of (repeat x00 32) n (Utils.pae [b "v2.local."; n; []])
         hello.

(** [x] with the byte at index [i] overwritten by 0xff. *)
Definition overwrite (i : nat) (x : bytes) : bytes :=
  firstn i x ++ xff :: skipn (S i) x.

End Samples.


(** * Properties *)

(** ** Slices *)

Module SliceFacts.

Import Slice.

Lemma slice_prefix {A} (x : list A) (k : nat) :
  slice x 0 (Z.of_nat k) = firstn k x.
Proof.
  unfold slice, clip. simpl.
  destruct (Z.of_nat k <? 0)%Z eqn:E; [apply Z.ltb_lt in E; lia|].
  rewrite (Z.min_l 0) by lia. rewrite Z.sub_0_r. simpl.
  destruct (Nat.le_gt_cases k (length x)) as [H | H].
  - rewrite Z.min_l by lia. now rewrite Nat2Z.id.
  - rewrite Z.min_r by lia. rewrite Nat2Z.id.
    now rewrite !firstn_all2 by lia.
Qed.

Lemma slice_to_prefix {A} (x : list A) (k : nat) :
  k <= length x ->
  slice_to x (Z.of_nat (length x) - Z.of_nat k) = firstn (length x - k) x.
Proof.
  intros H. unfold slice_to.
  replace (Z.of_nat (length x) - Z.of_nat k)%Z
    with (Z.of_nat (length x - k)) by lia.
  apply slice_prefix.
Qed.

Lemma slice_suffix {A} (x : list A) (k : nat) :
  0 < k ->
  slice_from x (- Z.of_nat k) = skipn (length x - k) x.
Proof.
  intros Hk. unfold slice_from, slice, clip.
  destruct (- Z.of_nat k <? 0)%Z eqn:E; [|apply Z.ltb_ge in E; lia].
  destruct (Z.of_nat (length x) <? 0)%Z eqn:E'; [apply Z.ltb_lt in E'; lia|].
  rewrite Z.min_id.
  replace (Z.to_nat (Z.max 0 (Z.of_nat (length x) + - Z.of_nat k)))
    with (length x - k) by lia.
  apply firstn_all2. rewrite length_skipn. lia.
Qed.

Lemma slice_middle {A} (x : list A) (i k : nat) :
  0 < k -> k <= i ->
  slice x (Z.of_nat i) (Z.of_nat (length x) - Z.of_nat k)
  = skipn i (firstn (length x - k) x).
Proof.
  intros Hk Hki. unfold slice, clip.
  destruct (Z.of_nat i <? 0)%Z eqn:E; [apply Z.ltb_lt in E; lia|].
  destruct (Nat.le_gt_cases (i + k) (length x)) as [H | H].
  - destruct (Z.of_nat (length x) - Z.of_nat k <? 0)%Z eqn:E';
      [apply Z.ltb_lt in E'; lia|].
    rewrite !Z.min_l by lia. rewrite Nat2Z.id.
    replace (Z.to_nat (Z.of_nat (length x) - Z.of_nat k - Z.of_nat i))
      with (length x - k - i) by lia.
    rewrite firstn_skipn_comm. f_equal. f_equal. lia.
  - rewrite (skipn_all2 (firstn (length x - k) x))
      by (rewrite length_firstn; lia).
    match goal with |- firstn ?n _ = _ => replace n with 0; [reflexivity|] end.
    destruct (Z.of_nat (length x) - Z.of_nat k <? 0)%Z eqn:E';
      [apply Z.ltb_lt in E' | apply Z.ltb_ge in E']; lia.
Qed.

(** A payload laid out as nonce, ciphertext, tag is cut back into them. *)
Lemma slice_layout {A} (n c tag : list A) (i k : nat) :
  length n = i -> length tag = k -> 0 < k -> k <= i ->
  let x := n ++ c ++ tag in
  slice x 0 (Z.of_nat i) = n
  /\ slice x (Z.of_nat i) (Z.of_nat (length x) - Z.of_nat k) = c
  /\ slice_from x (- Z.of_nat k) = tag.
Proof.
  intros Hn Ht Hk Hki x.
  assert (Hx : length x = i + length c + k)
    by (unfold x; rewrite !length_app; lia).
  rewrite slice_prefix, slice_middle, slice_suffix by assumption.
  replace (length x - k) with (length n + length c) by lia.
  unfold x. repeat split.
  - rewrite <- Hn. now rewrite firstn_app, firstn_all, Nat.sub_diag, app_nil_r.
  - rewrite app_assoc, <- length_app.
    rewrite firstn_app, firstn_all, Nat.sub_diag. simpl. rewrite app_nil_r.
    rewrite <- Hn. now rewrite skipn_app, skipn_all, Nat.sub_diag.
  - rewrite app_assoc, <- length_app.
    now rewrite skipn_app, skipn_all, Nat.sub_diag.
Qed.

End SliceFacts.

(** ** base64url and split *)

Module UtilsFacts.

Import Utils.

Lemma list_ind3 {A} (Q : list A -> Prop) :
  Q [] -> (forall x, Q [x]) -> (forall x y, Q [x; y]) ->
  (forall x y z l, Q l -> Q (x :: y :: z :: l)) ->
  forall l, Q l.
Proof.
  intros H0 H1 H2 H3.
  fix IH 1.
  intros [|x [|y [|z l]]];
    [exact H0 | apply H1 | apply H2 | apply H3; apply IH].
Qed.

Lemma sextet_of_char_of_sextet (s : sextet) :
  sextet_of_char (char_of_sextet s) = Some s.
Proof.
  destruct s as [[[[[[] []] []] []] []] []]; reflexivity.
Qed.

Lemma char_of_sextet_not_dot (s : sextet) :
  char_of_sextet s <> "."%byte.
Proof.
  destruct s as [[[[[[] []] []] []] []] []]; discriminate.
Qed.

Lemma byte_of_bits8_bits8 (x : byte) :
  let '(x7, x6, x5, x4, x3, x2, x1, x0) := bits8 x in
  byte_of_bits8 x7 x6 x5 x4 x3 x2 x1 x0 = x.
Proof.
  unfold bits8, byte_of_bits8.
  destruct (Byte.to_bits x) as [x0 [x1 [x2 [x3 [x4 [x5 [x6 x7]]]]]]] eqn:E.
  rewrite <- E. apply Byte.of_bits_to_bits.
Qed.

Lemma base64url_encode_no_dot (v : bytes) : no_dot (base64url_encode v).
Proof.
  induction v as [|x|x y|x y z l IH] using list_ind3.
  - constructor.
  - simpl. unfold encode1. destruct (bits8 x) as [[[[[[[? ?] ?] ?] ?] ?] ?] ?].
    repeat constructor; apply char_of_sextet_not_dot.
  - simpl. unfold encode2.
    destruct (bits8 x) as [[[[[[[? ?] ?] ?] ?] ?] ?] ?].
    destruct (bits8 y) as [[[[[[[? ?] ?] ?] ?] ?] ?] ?].
    repeat constructor; apply char_of_sextet_not_dot.
  - change (base64url_encode (x :: y :: z :: l))
      with (encode3 x y z ++ base64url_encode l).
    apply Forall_app. split; [|exact IH].
    unfold encode3.
    destruct (bits8 x) as [[[[[[[? ?] ?] ?] ?] ?] ?] ?].
    destruct (bits8 y) as [[[[[[[? ?] ?] ?] ?] ?] ?] ?].
    destruct (bits8 z) as [[[[[[[? ?] ?] ?] ?] ?] ?] ?].
    repeat constructor; apply char_of_sextet_not_dot.
Qed.

Lemma decode_chars_cons (c : byte) (cs : bytes) :
  decode_chars (c :: cs)
  = match sextet_of_char c, decode_chars cs with
    | Some s, Some l => Some (s :: l)
    | _, _ => None
    end.
Proof. reflexivity. Qed.

Lemma base64url_decode_sextets (v : bytes) :
  match decode_chars (base64url_encode v) with
  | Some l => decode_sextets l = Some v
  | None => False
  end.
Proof.
  induction v as [|x|x y|x y z l IH] using list_ind3.
  - reflexivity.
  - simpl. unfold encode1. pose proof (byte_of_bits8_bits8 x) as Hx.
    destruct (bits8 x) as [[[[[[[? ?] ?] ?] ?] ?] ?] ?].
    rewrite !decode_chars_cons, !sextet_of_char_of_sextet. simpl.
    now rewrite Hx.
  - simpl. unfold encode2.
    pose proof (byte_of_bits8_bits8 x) as Hx.
    pose proof (byte_of_bits8_bits8 y) as Hy.
    destruct (bits8 x) as [[[[[[[? ?] ?] ?] ?] ?] ?] ?].
    destruct (bits8 y) as [[[[[[[? ?] ?] ?] ?] ?] ?] ?].
    rewrite !decode_chars_cons, !sextet_of_char_of_sextet. simpl.
    now rewrite Hx, Hy.
  - change (base64url_encode (x :: y :: z :: l))
      with (encode3 x y z ++ base64url_encode l).
    unfold encode3.
    pose proof (byte_of_bits8_bits8 x) as Hx.
    pose proof (byte_of_bits8_bits8 y) as Hy.
    pose proof (byte_of_bits8_bits8 z) as Hz.
    destruct (bits8 x) as [[[[[[[? ?] ?] ?] ?] ?] ?] ?].
    destruct (bits8 y) as [[[[[[[? ?] ?] ?] ?] ?] ?] ?].
    destruct (bits8 z) as [[[[[[[? ?] ?] ?] ?] ?] ?] ?].
    cbn [app].
    rewrite !decode_chars_cons, !sextet_of_char_of_sextet.
    destruct (decode_chars (base64url_encode l)) as [sl|]; [|contradiction].
    cbn [decode_sextets]. rewrite IH. simpl.
    now rewrite Hx, Hy, Hz.
Qed.

(** Decoding undoes encoding. *)
Lemma base64url_decode_encode (v : bytes) :
  base64url_decode (decode_utf8 (base64url_encode v)) = Ok v.
Proof.
  unfold base64url_decode, decode_utf8.
  rewrite list_byte_of_string_of_list_byte.
  pose proof (base64url_decode_sextets v) as H.
  destruct (decode_chars (base64url_encode v)); [|contradiction].
  now rewrite H.
Qed.

Lemma string_of_list_byte_cons (c : byte) (l : bytes) :
  string_of_list_byte (c :: l)
  = String (ascii_of_byte c) (string_of_list_byte l).
Proof. reflexivity. Qed.

Lemma string_of_list_byte_app (l1 l2 : bytes) :
  string_of_list_byte (l1 ++ l2)
  = (string_of_list_byte l1 ++ string_of_list_byte l2)%string.
Proof.
  induction l1 as [|c l1 IH]; [reflexivity|].
  cbn [app]. rewrite !string_of_list_byte_cons. cbn [String.append].
  now rewrite IH.
Qed.

Lemma ascii_of_byte_not_dot (c : byte) :
  c <> "."%byte -> Ascii.eqb (ascii_of_byte c) "." = false.
Proof.
  intros H. apply Ascii.eqb_neq. intros E. apply H.
  rewrite <- (byte_of_ascii_of_byte c), E. reflexivity.
Qed.

Lemma split_no_dot (l : bytes) :
  no_dot l ->
  split "." (string_of_list_byte l) = [string_of_list_byte l].
Proof.
  induction 1 as [|c l Hc _ IH]; [reflexivity|].
  rewrite string_of_list_byte_cons. cbn [split].
  now rewrite (ascii_of_byte_not_dot Hc), IH.
Qed.

Lemma split_dot (l : bytes) (s : str) :
  no_dot l ->
  split "." (string_of_list_byte l ++ String "." s)%string
  = string_of_list_byte l :: split "." s.
Proof.
  induction 1 as [|c l Hc _ IH]; [reflexivity|].
  rewrite string_of_list_byte_cons. cbn [String.append split].
  now rewrite (ascii_of_byte_not_dot Hc), IH.
Qed.

Lemma length_le_bytes (w : nat) (n : N) : length (le_bytes w n) = w.
Proof.
  revert n. induction w as [|w IH]; intros n; [reflexivity|].
  simpl. now rewrite IH.
Qed.

End UtilsFacts.

(** ** Constructors *)



Module KeyFacts.

Lemma truthy_length (x : bytes) : truthy x = negb (length x =? 0)%nat.
Proof. now destruct x. Qed.

Lemma V2Local_new_ok (key : material) (self : V2Local.t) :
  V2Local.__init__ key = Ok self ->
  self = KeyInterface.mk 2 "local" (b "v2.local.") (material_bytes key)
  /\ length (material_bytes key) = 32.
Proof.
  unfold V2Local.__init__, LocalKey.__init__, KeyInterface.__init__.
  fold (material_bytes key).
  destruct (truthy (material_bytes key)); simpl; [|discriminate].
  destruct (length (material_bytes key) =? 32)%nat eqn:E; simpl;
    [|discriminate].
  intros [= <-]. split; [reflexivity|now apply Nat.eqb_eq].
Qed.

Lemma V2Local_new_32 (key : material) :
  length (material_bytes key) = 32 ->
  V2Local.__init__ key
  = Ok (KeyInterface.mk 2 "local" (b "v2.local.") (material_bytes key)).
Proof.
  intros H. unfold V2Local.__init__, LocalKey.__init__, KeyInterface.__init__.
  fold (material_bytes key).
  rewrite truthy_length, H. simpl. now rewrite H.
Qed.


Lemma V2Public_new_ok (o : py_object) (self : V2Public.t) :
  V2Public.__init__ o = Ok self ->
  exists k, o = Ed25519 k
            /\ self = V2Public.mk 2 "public" (b "v2.public.") k 64.
Proof.
  unfold V2Public.__init__, KeyInterface.__init__.
  destruct o as [k | truth]; simpl.
  - intros [= <-]. now exists k.
  - destruct truth; simpl; discriminate.
Qed.



End KeyFacts.

(** ** The stand-in keeps the promises of the libraries *)

Module StandinFacts.

Import Standin.

Lemma bytes_eqb_refl (x : bytes) : bytes_eqb x x = true.
Proof. unfold bytes_eqb. now destruct (list_eq_dec byte_eq_dec x x). Qed.


Lemma blake2b_total : Blake2bTotal primitives.
Proof.
  intros key n data Hk [Hn1 Hn2]. simpl. unfold blake2b.
  apply Nat.leb_le in Hk, Hn1, Hn2. rewrite Hk, Hn1, Hn2. simpl.
  eexists. split; [reflexivity|]. apply UtilsFacts.length_le_bytes.
Qed.

Lemma seal_total : SealTotal primitives.
Proof.
  intros key nonce aad plaintext Hk Hn. simpl. unfold seal.
  rewrite Hk, Hn. simpl. do 2 eexists. split; [reflexivity|].
  apply UtilsFacts.length_le_bytes.
Qed.

Lemma open_seal : OpenSeal primitives.
Proof.
  intros key nonce aad plaintext c tag. simpl. unfold seal, open.
  destruct ((length key =? 32)%nat && (length nonce =? 24)%nat);
    [|discriminate].
  intros [= <- <-]. rewrite rev_involutive, bytes_eqb_refl. reflexivity.
Qed.




Lemma sign_total : SignTotal primitives.
Proof.
  intros seed message _. simpl. unfold sign. eexists.
  split; [reflexivity|]. apply UtilsFacts.length_le_bytes.
Qed.

Lemma verify_sign : VerifySign primitives.
Proof.
  intros seed message sig. simpl. unfold sign, verify, public.
  intros [= <-]. rewrite rev_involutive. apply bytes_eqb_refl.
Qed.

End StandinFacts.




(** ** V2Local, run *)

Module V2LocalFacts.

Import KeyInterface.

Section Run.
Context {P : Primitives}.

Lemma generate_nonce_seeded (key msg : bytes) (w : World) :
  length key = 24 ->
  V2Local._generate_nonce key msg w
  = (wrap (EncryptError "Failed to generate internal nonce.")
       (blake2b_digest key 24 msg),
     append_call w [Blake2b key 24 msg]).
Proof.
  intros H. unfold V2Local._generate_nonce.
  rewrite KeyFacts.truthy_length, H.
  cbv [Nat.eqb negb bind ret try_except hashlib_blake2b log lift
         append_call wrap].
  cbn [entropy cursor trace].
  now destruct (blake2b_digest key 24 msg).
Qed.

Lemma generate_nonce_random (msg : bytes) (w : World) :
  V2Local._generate_nonce [] msg w
  = (wrap (EncryptError "Failed to generate internal nonce.")
       (blake2b_digest (peek w 24) 24 msg),
     mkWorld (entropy w) (cursor w + 24)
       (trace w ++ [TokenBytes 24; Blake2b (peek w 24) 24 msg])).
Proof.
  unfold V2Local._generate_nonce.
  cbv [truthy bind ret try_except hashlib_blake2b log lift token_bytes
         wrap].
  cbn [entropy cursor trace]. rewrite <- app_assoc. cbn [app].
  now destruct (blake2b_digest (peek w 24) 24 msg).
Qed.

Lemma generate_nonce_rejects (key msg : bytes) (w : World) :
  key <> [] -> length key <> 24 ->
  V2Local._generate_nonce key msg w
  = (Raise (ValueError "nonce must be 24 bytes long."), w).
Proof.
  intros Hne Hlen. unfold V2Local._generate_nonce.
  destruct key as [|c key]; [contradiction|].
  apply Nat.eqb_neq in Hlen. cbn [truthy]. rewrite Hlen.
  reflexivity.
Qed.

Lemma encrypt_run (self : V2Local.t) (payload footer ia nonce n : bytes)
      (w w1 : World) :
  V2Local._generate_nonce nonce payload w = (Ok n, w1) ->
  let pre_auth := Utils.pae [_header self; n; footer] in
  V2Local.encrypt self payload footer ia nonce w
  = (match aead_seal (_key self) n pre_auth payload with
     | Ok (c, tag) => Ok (frame (_header self) (n ++ c ++ tag) footer)
     | Raise err => Raise (From (EncryptError "Failed to encrypt.") err)
     end,
     append_call w1 [ChaCha20Poly1305Seal (_key self) n pre_auth payload]).
Proof.
  intros H pre_auth. unfold V2Local.encrypt, bind at 1. rewrite H.
  cbv [try_except encrypt_and_digest bind log lift ret
         ChaCha20_Poly1305_new cipher_update append_call frame].
  cbn [cipher_key cipher_nonce cipher_aad app entropy cursor trace].
  fold pre_auth.
  now destruct (aead_seal (_key self) n pre_auth payload) as [[c tag]|].
Qed.

Lemma encrypt_raises (self : V2Local.t) (payload footer ia nonce : bytes)
      (e : exn) (w w1 : World) :
  V2Local._generate_nonce nonce payload w = (Raise e, w1) ->
  V2Local.encrypt self payload footer ia nonce w = (Raise e, w1).
Proof.
  intros H. unfold V2Local.encrypt, bind at 1. now rewrite H.
Qed.

Lemma decrypt_run (self : V2Local.t) (payload footer ia : bytes)
      (w : World) :
  let n := Slice.slice payload 0 24 in
  let c := Slice.slice payload 24 (Z.of_nat (length payload) - 16) in
  let tag := Slice.slice_from payload (-16) in
  let pre_auth := Utils.pae [_header self; n; footer] in
  V2Local.decrypt self payload footer ia w
  = (wrap (DecryptError "Failed to decrypt.")
       (aead_open (_key self) n pre_auth c tag),
     append_call w [ChaCha20Poly1305Open (_key self) n pre_auth c tag]).
Proof.
  intros n c tag pre_auth. unfold V2Local.decrypt.
  cbv [try_except decrypt_and_verify bind log lift
         ChaCha20_Poly1305_new cipher_update append_call wrap].
  cbn [cipher_key cipher_nonce cipher_aad app entropy cursor trace].
  fold n c tag. fold pre_auth.
  now destruct (aead_open (_key self) n pre_auth c tag).
Qed.

End Run.

End V2LocalFacts.


(** ** V2Public, run *)

Module V2PublicFacts.

Import V2Public.

Section Run.
Context {P : Primitives}.

Lemma sign_run (self : t) (seed payload footer ia : bytes) (w : World) :
  _key self = Ed25519PrivateKey seed ->
  let m2 := Utils.pae [_header self; payload; footer] in
  sign self payload footer ia w
  = (wrap (SignError "Failed to sign.") (ed25519_sign seed m2),
     append_call w [Ed25519Sign seed m2]).
Proof.
  intros H m2. unfold sign. rewrite H.
  cbv [try_except private_key_sign bind log lift append_call wrap].
  cbn [entropy cursor trace]. fold m2.
  now destruct (ed25519_sign seed m2).
Qed.

Lemma sign_public_only (self : t) (raw payload footer ia : bytes)
      (w : World) :
  _key self = Ed25519PublicKey raw ->
  sign self payload footer ia w
  = (Raise (ValueError "A public key cannot be used for signing."), w).
Proof. intros H. unfold sign. now rewrite H. Qed.

Lemma verify_short (self : t) (payload footer ia : bytes) (w : World) :
  length payload <= _sig_size self ->
  verify self payload footer ia w
  = (Raise (ValueError "Invalid payload."), w).
Proof.
  intros H. unfold verify. apply Nat.leb_le in H. now rewrite H.
Qed.

Lemma verify_run (self : t) (payload footer ia : bytes) (w : World) :
  _sig_size self = 64 -> 64 < length payload ->
  let message := firstn (length payload - 64) payload in
  let signature := skipn (length payload - 64) payload in
  let k := verifying_key (_key self) in
  let m2 := Utils.pae [_header self; message; footer] in
  verify self payload footer ia w
  = (if ed25519_verify k signature m2 then Ok message
     else Raise (From (VerifyError "Failed to verify.")
                   (LibraryError "InvalidSignature")),
     append_call w [Ed25519Verify k signature m2]).
Proof.
  intros Hsz H message signature k m2. unfold verify. rewrite Hsz.
  assert (E : (length payload <=? 64)%nat = false)
    by (apply Nat.leb_gt; exact H).
  rewrite E.
  rewrite (SliceFacts.slice_suffix payload (k := 64)) by lia.
  rewrite (SliceFacts.slice_to_prefix payload (k := 64)) by lia.
  fold message signature. fold m2. subst k. unfold verifying_key.
  cbv [try_except public_key_verify bind log lift ret raise append_call].
  cbn [entropy cursor trace].
  now destruct (ed25519_verify _ signature m2).
Qed.

End Run.

End V2PublicFacts.

(** ** Token framing and PASERK strings *)

Module FramingFacts.

Import Utils UtilsFacts.

Lemma split_segments (v p rest : bytes) :
  no_dot v -> no_dot p ->
  split "." (string_of_list_byte ((v ++ b "." ++ p ++ b ".") ++ rest))
  = string_of_list_byte v :: string_of_list_byte p
      :: split "." (string_of_list_byte rest).
Proof.
  intros Hv Hp.
  replace ((v ++ b "." ++ p ++ b ".") ++ rest)
    with (v ++ "."%byte :: p ++ "."%byte :: rest)
    by (now rewrite <- !app_assoc).
  rewrite string_of_list_byte_app, string_of_list_byte_cons.
  change (ascii_of_byte ".") with "."%char.
  rewrite (split_dot _ Hv). f_equal.
  rewrite string_of_list_byte_app, string_of_list_byte_cons.
  change (ascii_of_byte ".") with "."%char.
  now rewrite (split_dot _ Hp).
Qed.

Lemma split_frame (v p x footer : bytes) :
  no_dot v -> no_dot p ->
  split "." (decode_utf8 (frame (v ++ b "." ++ p ++ b ".") x footer))
  = string_of_list_byte v :: string_of_list_byte p
      :: decode_utf8 (base64url_encode x)
      :: (if truthy footer then [decode_utf8 (base64url_encode footer)]
          else []).
Proof.
  intros Hv Hp. unfold frame, decode_utf8.
  destruct (truthy footer).
  - rewrite <- app_assoc.
    rewrite (split_segments _ Hv Hp). do 2 f_equal.
    change (b ".") with ["."%byte]. cbn [app].
    rewrite string_of_list_byte_app, string_of_list_byte_cons.
    change (ascii_of_byte ".") with "."%char.
    rewrite (split_dot _ (base64url_encode_no_dot x)). f_equal.
    apply split_no_dot, base64url_encode_no_dot.
  - rewrite (split_segments _ Hv Hp). do 2 f_equal.
    apply split_no_dot, base64url_encode_no_dot.
Qed.

Lemma no_dot_literal (l : bytes) :
  forallb (fun c => negb (Byte.eqb c "."%byte)) l = true -> no_dot l.
Proof.
  intros H. apply Forall_forall. intros c Hc E. subst c.
  rewrite forallb_forall in H. specialize (H _ Hc). discriminate.
Qed.

(** A PASERK string of version 2 splits into its three fragments. *)
Lemma split_paserk (type x : bytes) :
  no_dot type ->
  split "."
    (string_of_list_byte
       ((b "k2" ++ b "." ++ type ++ b ".") ++ base64url_encode x))
  = ["k2"%string; string_of_list_byte type;
     decode_utf8 (base64url_encode x)].
Proof.
  intros Ht. rewrite split_segments; [|now apply no_dot_literal|exact Ht].
  do 2 f_equal. apply split_no_dot, base64url_encode_no_dot.
Qed.

End FramingFacts.

Module PysetoFacts.

Import Utils UtilsFacts FramingFacts.

Section Decode.
Context {P : Primitives}.


Lemma decode_framed (k : v2_key) (purpose x footer ia : bytes) (w : World) :
  no_dot purpose ->
  Pyseto.header k = b "v2" ++ b "." ++ purpose ++ b "." ->
  Pyseto.decode k (frame (Pyseto.header k) x footer) ia w
  = (m <- adapter_open k x footer ia ;; ret (m, footer)) w.
Proof.
  intros Hp Hh.
  pose proof (split_frame x footer (no_dot_literal (b "v2") eq_refl) Hp)
    as Hs.
  rewrite <- Hh in Hs. unfold Pyseto.decode. cbv zeta. rewrite Hs.
  assert (Hhdr : bytes_eqb
            (encode_utf8
               (string_of_list_byte (b "v2") ++ "."
                  ++ string_of_list_byte purpose ++ ".")%string)
            (Pyseto.header k) = true).
  { rewrite Hh. unfold encode_utf8.
    replace (string_of_list_byte (b "v2") ++ "."
               ++ string_of_list_byte purpose ++ ".")%string
      with (string_of_list_byte (b "v2" ++ b "." ++ purpose ++ b ".")).
    - rewrite list_byte_of_string_of_list_byte.
      apply StandinFacts.bytes_eqb_refl.
    - now rewrite !string_of_list_byte_app. }
  unfold adapter_open.
  destruct footer as [|f0 fs]; cbn [truthy length Nat.eqb orb negb];
    cbv [bind lift ret raise item nth_error];
    rewrite Hhdr; cbn [negb];
    rewrite !base64url_decode_encode; reflexivity.
Qed.

End Decode.

End PysetoFacts.

(** ** Round trips *)

Module RoundTrip.

Import Utils UtilsFacts.

Section Laws.
Context {P : Primitives}.

Lemma length_peek (w : World) (n : nat) : length (peek w n) = n.
Proof. unfold peek. now rewrite length_map, length_seq. Qed.

Lemma decrypt_layout (n c tag : bytes) :
  length n = 24 -> length tag = 16 ->
  let x := n ++ c ++ tag in
  Slice.slice x 0 24 = n
  /\ Slice.slice x 24 (Z.of_nat (length x) - 16) = c
  /\ Slice.slice_from x (-16) = tag.
Proof.
  intros Hn Ht.
  apply (SliceFacts.slice_layout n c tag (i := 24) (k := 16)); auto; lia.
Qed.

Lemma generate_nonce_ok (nonce msg : bytes) (w : World) :
  Blake2bTotal P ->
  nonce = [] \/ length nonce = 24 ->
  exists d w1,
    V2Local._generate_nonce nonce msg w = (Ok d, w1) /\ length d = 24.
Proof.
  intros Hb [-> | Hlen].
  - rewrite V2LocalFacts.generate_nonce_random.
    destruct (Hb (peek w 24) 24 msg) as (d & Hd & Hl);
      [rewrite length_peek; lia | lia |].
    rewrite Hd. simpl. eauto.
  - rewrite V2LocalFacts.generate_nonce_seeded by exact Hlen.
    destruct (Hb nonce 24 msg) as (d & Hd & Hl); [lia | lia |].
    rewrite Hd. simpl. eauto.
Qed.

Lemma local_round_trip
      (key : material) (self : V2Local.t)
      (payload footer ia nonce : bytes) (w : World) :
  Blake2bTotal P -> SealTotal P -> OpenSeal P ->
  V2Local.__init__ key = Ok self ->
  nonce = [] \/ length nonce = 24 ->
  exists n c tag w1,
    length n = 24 /\ length tag = 16
    /\ V2Local.encrypt self payload footer ia nonce w
       = (Ok (frame (KeyInterface._header self) (n ++ c ++ tag) footer), w1)
    /\ Pyseto.encode (Local self) payload footer ia nonce w
       = (Ok (frame (KeyInterface._header self) (n ++ c ++ tag) footer), w1)
    /\ (forall w2,
           fst (V2Local.decrypt self (n ++ c ++ tag) footer ia w2)
           = Ok payload)
    /\ (forall w2,
           fst (Pyseto.decode (Local self)
                  (frame (KeyInterface._header self) (n ++ c ++ tag) footer)
                  ia w2)
           = Ok (payload, footer)).
Proof.
  intros Hb Hs Ho Hnew Hnonce.
  apply KeyFacts.V2Local_new_ok in Hnew as [-> Hlen].
  set (self := KeyInterface.mk 2 "local" (b "v2.local.")
                 (material_bytes key)).
  destruct (generate_nonce_ok payload w Hb Hnonce) as (n & w1 & Hn & Hln).
  pose proof (V2LocalFacts.encrypt_run self payload footer ia nonce w Hn) as Henc.
  cbv zeta in Henc.
  destruct (Hs (KeyInterface._key self) n
               (pae [KeyInterface._header self; n; footer]) payload)
    as (c & tag & Hseal & Hlt); [exact Hlen | exact Hln |].
  rewrite Hseal in Henc.
  assert (Hdec : forall w2,
             fst (V2Local.decrypt self (n ++ c ++ tag) footer ia w2)
             = Ok payload).
  { intros w2. rewrite V2LocalFacts.decrypt_run. cbv zeta.
    destruct (decrypt_layout n c tag Hln Hlt) as (-> & -> & ->).
    rewrite (Ho _ _ _ _ _ _ Hseal). reflexivity. }
  exists n, c, tag. eexists.
  split; [exact Hln|]. split; [exact Hlt|]. split; [exact Henc|].
  split; [exact Henc|]. split; [exact Hdec|].
  intros w2.
  rewrite (PysetoFacts.decode_framed (Local self) (purpose := b "local"));
    [| now apply FramingFacts.no_dot_literal | reflexivity].
  unfold bind. cbn [adapter_open].
  specialize (Hdec w2).
  destruct (V2Local.decrypt self (n ++ c ++ tag) footer ia w2) as [r w3].
  cbn [fst] in Hdec. subst r. reflexivity.
Qed.

Lemma public_encode
      (seed : bytes) (self : V2Public.t)
      (payload footer ia nonce : bytes) (w : World) :
  SignTotal P ->
  V2Public.__init__ (Ed25519 (Ed25519PrivateKey seed)) = Ok self ->
  length seed = 32 ->
  exists sig w1,
    ed25519_sign seed (pae [V2Public._header self; payload; footer])
    = Ok sig
    /\ length sig = 64
    /\ Pyseto.encode (Public self) payload footer ia nonce w
       = (Ok (frame (V2Public._header self) (payload ++ sig) footer), w1).
Proof.
  intros Hg Hnew Hlen.
  apply KeyFacts.V2Public_new_ok in Hnew as (k & [= <-] & ->).
  set (self := V2Public.mk 2 "public" (b "v2.public.")
                 (Ed25519PrivateKey seed) 64).
  destruct (Hg seed (pae [V2Public._header self; payload; footer]) Hlen)
    as (sig & Hsig & Hls).
  exists sig. eexists. split; [exact Hsig|]. split; [exact Hls|].
  unfold Pyseto.encode, bind.
  rewrite (V2PublicFacts.sign_run self (seed := seed) payload footer ia w eq_refl).
  cbv zeta. rewrite Hsig. reflexivity.
Qed.

Lemma public_round_trip
      (seed : bytes) (self : V2Public.t)
      (payload footer ia nonce : bytes) (w : World) :
  SignTotal P -> VerifySign P ->
  V2Public.__init__ (Ed25519 (Ed25519PrivateKey seed)) = Ok self ->
  length seed = 32 ->
  payload <> [] ->
  exists token w1,
    Pyseto.encode (Public self) payload footer ia nonce w = (Ok token, w1)
    /\ (forall w2,
           fst (Pyseto.decode (Public self) token ia w2)
           = Ok (payload, footer)).
Proof.
  intros Hg Hv Hnew Hlen Hne.
  destruct (public_encode payload footer ia nonce w Hg Hnew Hlen)
    as (sig & w1 & Hsig & Hls & Henc).
  apply KeyFacts.V2Public_new_ok in Hnew as (k & [= <-] & ->).
  set (self := V2Public.mk 2 "public" (b "v2.public.")
                 (Ed25519PrivateKey seed) 64) in *.
  do 2 eexists. split; [exact Henc|]. intros w2.
  rewrite (PysetoFacts.decode_framed (Public self) (purpose := b "public"));
    [| now apply FramingFacts.no_dot_literal | reflexivity].
  unfold bind. cbn [adapter_open].
  assert (Hlong : 64 < length (payload ++ sig)).
  { rewrite length_app, Hls. destruct payload; [contradiction|simpl; lia]. }
  rewrite (V2PublicFacts.verify_run self (payload ++ sig) footer ia w2 eq_refl Hlong).
  cbv zeta.
  replace (length (payload ++ sig) - 64) with (length payload)
    by (rewrite length_app; lia).
  rewrite firstn_app, firstn_all, Nat.sub_diag, skipn_app, skipn_all,
    Nat.sub_diag.
  cbn [firstn skipn app]. rewrite app_nil_r.
  cbn [verifying_key V2Public._key self].
  rewrite (Hv _ _ _ Hsig). reflexivity.
Qed.

(** An empty payload is signed and framed, and refused on the way back. *)
Lemma public_empty_payload
      (seed : bytes) (self : V2Public.t)
      (footer ia nonce : bytes) (w : World) :
  SignTotal P ->
  V2Public.__init__ (Ed25519 (Ed25519PrivateKey seed)) = Ok self ->
  length seed = 32 ->
  exists token w1,
    Pyseto.encode (Public self) [] footer ia nonce w = (Ok token, w1)
    /\ (forall w2,
           Pyseto.decode (Public self) token ia w2
           = (Raise (ValueError "Invalid payload."), w2)).
Proof.
  intros Hg Hnew Hlen.
  destruct (public_encode [] footer ia nonce w Hg Hnew Hlen)
    as (sig & w1 & Hsig & Hls & Henc).
  apply KeyFacts.V2Public_new_ok in Hnew as (k & [= <-] & ->).
  set (self := V2Public.mk 2 "public" (b "v2.public.")
                 (Ed25519PrivateKey seed) 64) in *.
  do 2 eexists. split; [exact Henc|]. intros w2.
  rewrite (PysetoFacts.decode_framed (Public self) (purpose := b "public"));
    [| now apply FramingFacts.no_dot_literal | reflexivity].
  unfold bind. cbn [adapter_open app].
  rewrite V2PublicFacts.verify_short; [reflexivity|].
  cbn [V2Public._sig_size self]. lia.
Qed.

End Laws.

End RoundTrip.

(** ** PASERK *)

Module PaserkFacts.

Import Utils UtilsFacts FramingFacts.

Lemma local_to_paserk (kb : bytes) :
  LocalKey.to_paserk (KeyInterface.mk 2 "local" (b "v2.local.") kb)
  = string_of_list_byte
      ((b "k2" ++ b "." ++ b "local" ++ b ".") ++ base64url_encode kb).
Proof. now rewrite string_of_list_byte_app. Qed.

Lemma public_to_paserk (raw : bytes) :
  V2Public.to_paserk
    (V2Public.mk 2 "public" (b "v2.public.") (Ed25519PublicKey raw) 64)
  = string_of_list_byte
      ((b "k2" ++ b "." ++ b "public" ++ b ".") ++ base64url_encode raw).
Proof. now rewrite string_of_list_byte_app. Qed.

Lemma secret_to_paserk (seed : bytes) :
  V2Public.to_paserk
    (V2Public.mk 2 "public" (b "v2.public.") (Ed25519PrivateKey seed) 64)
  = string_of_list_byte
      ((b "k2" ++ b "." ++ b "secret" ++ b ".") ++ base64url_encode seed).
Proof. now rewrite string_of_list_byte_app. Qed.

Ltac read_fragments :=
  rewrite split_paserk by (now apply no_dot_literal);
  cbn [item nth_error rbind];
  repeat match goal with
    | |- context [string_of_list_byte (b ?s)] =>
        change (string_of_list_byte (b s)) with s
    end;
  cbn [String.eqb Ascii.eqb Bool.eqb negb andb];
  rewrite ?base64url_decode_encode;
  cbn [rbind].

Lemma local_from_paserk (key : material) (self : V2Local.t) :
  V2Local.__init__ key = Ok self ->
  V2Local.from_paserk (LocalKey.to_paserk self) = Ok self
  /\ Key.from_paserk (Key.to_paserk (Local self)) = Ok (Local self).
Proof.
  intros Hnew. apply KeyFacts.V2Local_new_ok in Hnew as [-> Hlen].
  assert (H : V2Local.from_paserk
                (LocalKey.to_paserk
                   (KeyInterface.mk 2 "local" (b "v2.local.")
                      (material_bytes key)))
              = Ok (KeyInterface.mk 2 "local" (b "v2.local.")
                      (material_bytes key))).
  { rewrite local_to_paserk. unfold V2Local.from_paserk. read_fragments.
    now apply (KeyFacts.V2Local_new_32 (Bytes (material_bytes key))). }
  split; [exact H|].
  unfold Key.from_paserk, Key.to_paserk. rewrite H.
  rewrite local_to_paserk. read_fragments. reflexivity.
Qed.

Lemma public_from_paserk (k : ed25519_key) (self : V2Public.t) :
  V2Public.__init__ (Ed25519 k) = Ok self ->
  length (match k with
          | Ed25519PublicKey raw => raw
          | Ed25519PrivateKey seed => seed
          end) = 32 ->
  V2Public.from_paserk (V2Public.to_paserk self) = Ok self
  /\ Key.from_paserk (Key.to_paserk (Public self)) = Ok (Public self).
Proof.
  intros Hnew Hlen.
  apply KeyFacts.V2Public_new_ok in Hnew as (k' & [= <-] & ->).
  assert (H : V2Public.from_paserk
                (V2Public.to_paserk
                   (V2Public.mk 2 "public" (b "v2.public.") k 64))
              = Ok (V2Public.mk 2 "public" (b "v2.public.") k 64)).
  { destruct k as [raw | seed].
    - rewrite public_to_paserk. unfold V2Public.from_paserk.
      read_fragments. unfold from_public_bytes. now rewrite Hlen.
    - rewrite secret_to_paserk. unfold V2Public.from_paserk.
      read_fragments. unfold from_private_bytes. now rewrite Hlen. }
  split; [exact H|].
  unfold Key.from_paserk, Key.to_paserk. rewrite H.
  destruct k as [raw | seed].
  - rewrite public_to_paserk. read_fragments. reflexivity.
  - rewrite secret_to_paserk. read_fragments. reflexivity.
Qed.

End PaserkFacts.

(** * The claims *)

(** ** Keys and their PASERK form *)


(** C8.  [from_paserk] undoes [to_paserk] on every version 2 key: the local
    key comes back with the same 32 raw bytes; a public-mode key is written
    as "k2.public." when it holds a public key object and as "k2.secret."
    when it holds a private one, and comes back as the same kind of object
    with the same bytes.  The key that comes back is equal to the one
    written, so every operation behaves on it as on the original. *)
Theorem paserk_round_trip :
  (forall (key : material) (self : V2Local.t),
      V2Local.__init__ key = Ok self ->
      length (KeyInterface._key self) = 32
      /\ V2Local.from_paserk (LocalKey.to_paserk self) = Ok self
      /\ Key.from_paserk (Key.to_paserk (Local self)) = Ok (Local self))
  /\ (forall (raw : bytes) (self : V2Public.t),
         V2Public.__init__ (Ed25519 (Ed25519PublicKey raw)) = Ok self ->
         length raw = 32 ->
         V2Public.to_paserk self
         = ("k2.public."
              ++ Utils.decode_utf8 (Utils.base64url_encode raw))%string
         /\ V2Public.from_paserk (V2Public.to_paserk self) = Ok self
         /\ V2Public._key self = Ed25519PublicKey raw
         /\ Key.from_paserk (Key.to_paserk (Public self)) = Ok (Public self))
  /\ (forall (seed : bytes) (self : V2Public.t),
         V2Public.__init__ (Ed25519 (Ed25519PrivateKey seed)) = Ok self ->
         length seed = 32 ->
         V2Public.to_paserk self
         = ("k2.secret."
              ++ Utils.decode_utf8 (Utils.base64url_encode seed))%string
         /\ V2Public.from_paserk (V2Public.to_paserk self) = Ok self
         /\ V2Public._key self = Ed25519PrivateKey seed
         /\ Key.from_paserk (Key.to_paserk (Public self)) = Ok (Public self)).
Proof.
  split; [|split].
  - intros key self Hnew.
    destruct (PaserkFacts.local_from_paserk key Hnew) as [H1 H2].
    apply KeyFacts.V2Local_new_ok in Hnew as [-> Hlen]. auto.
  - intros raw self Hnew Hlen.
    destruct (PaserkFacts.public_from_paserk (k := Ed25519PublicKey raw) Hnew Hlen)
      as [H1 H2].
    apply KeyFacts.V2Public_new_ok in Hnew as (k & [= <-] & ->). auto.
  - intros seed self Hnew Hlen.
    destruct (PaserkFacts.public_from_paserk (k := Ed25519PrivateKey seed) Hnew Hlen)
      as [H1 H2].
    apply KeyFacts.V2Public_new_ok in Hnew as (k & [= <-] & ->). auto.
Qed.

(** ** Operations *)

Section Operations.
Context {P : Primitives}.

(** C1 (as amended).  Round trip of version 2: for a local key of 32 bytes,
    every payload, footer and nonce seed (none, or 24 bytes), [encrypt]
    frames payload bytes nonce || ciphertext || tag on which [decrypt]
    with the same footer gives back the payload, and [decode] of the token
    gives back (payload, footer); for a signing key the round trip through
    [encode] and [decode] holds for every payload that is not empty. *)
Theorem round_trip_v2 :
  Blake2bTotal P -> SealTotal P -> OpenSeal P ->
  SignTotal P -> VerifySign P ->
  (forall (key : material) (self : V2Local.t)
          (payload footer ia nonce : bytes) (w : World),
      V2Local.__init__ key = Ok self ->
      nonce = [] \/ length nonce = 24 ->
      exists n c tag w1,
        length n = 24 /\ length tag = 16
        /\ V2Local.encrypt self payload footer ia nonce w
           = (Ok (frame (KeyInterface._header self) (n ++ c ++ tag) footer),
              w1)
        /\ Pyseto.encode (Local self) payload footer ia nonce w
           = (Ok (frame (KeyInterface._header self) (n ++ c ++ tag) footer),
              w1)
        /\ (forall w2,
               fst (V2Local.decrypt self (n ++ c ++ tag) footer ia w2)
               = Ok payload)
        /\ (forall w2,
               fst (Pyseto.decode (Local self)
                      (frame (KeyInterface._header self) (n ++ c ++ tag)
                         footer) ia w2)
               = Ok (payload, footer)))
  /\ (forall (seed : bytes) (self : V2Public.t)
             (payload footer ia nonce : bytes) (w : World),
         V2Public.__init__ (Ed25519 (Ed25519PrivateKey seed)) = Ok self ->
         length seed = 32 ->
         payload <> [] ->
         exists token w1,
           Pyseto.encode (Public self) payload footer ia nonce w
           = (Ok token, w1)
           /\ (forall w2,
                  fst (Pyseto.decode (Public self) token ia w2)
                  = Ok (payload, footer))).
Proof.
  intros Hb Hs Ho Hg Hv. split.
  - intros. now apply RoundTrip.local_round_trip with (key := key).
  - intros. now apply RoundTrip.public_round_trip with (seed := seed).
Qed.


(** C3 (as amended).  [V2Public.sign] with a private key returns the
    signature alone, Sign(private_key, pae([header, payload, footer])), a
    failure of the library becoming SignError, raised from the exception
    of the library; with a public key it raises
    ValueError and signs nothing.  The signed message is the PAE of header,
    payload and footer; the payload is no part of what [sign] returns. *)
Theorem sign_returns_signature
        (self : V2Public.t) (payload footer ia : bytes) (w : World) :
  let m2 := Utils.pae [V2Public._header self; payload; footer] in
  (forall seed,
      V2Public._key self = Ed25519PrivateKey seed ->
      V2Public.sign self payload footer ia w
      = (match ed25519_sign seed m2 with
         | Ok sig => Ok sig
         | Raise err => Raise (From (SignError "Failed to sign.") err)
         end,
         append_call w [Ed25519Sign seed m2]))
  /\ (forall raw,
         V2Public._key self = Ed25519PublicKey raw ->
         V2Public.sign self payload footer ia w
         = (Raise (ValueError "A public key cannot be used for signing."),
            w)).
Proof.
  intros m2. split.
  - intros seed Hk.
    pose proof (V2PublicFacts.sign_run self payload footer ia w Hk) as Hrun.
    cbv zeta in Hrun. fold m2 in Hrun.
    rewrite Hrun. unfold wrap. now destruct (ed25519_sign seed m2).
  - intros raw Hk. exact (V2PublicFacts.sign_public_only self payload footer ia w Hk).
Qed.

(** C5.  A caller's nonce seed that is not empty and whose length is not
    the version's (24 bytes for v2, 32 bytes for v4) makes [encrypt] fail
    with ValueError, the ValidationError of the specification, in a world
    left as it was: no entropy drawn, no primitive called.  A seed of the
    required length is accepted: v2 goes on to hash the payload under it
    and never raises ValueError, v4 goes on with the seed as given. *)
Theorem nonce_seed_length_enforced :
  (forall (self : V2Local.t) (payload footer ia nonce : bytes) (w : World),
      nonce <> [] -> length nonce <> 24 ->
      V2Local.encrypt self payload footer ia nonce w
      = (Raise (ValueError "nonce must be 24 bytes long."), w))
  /\ (forall (self : V2Local.t) (payload footer ia nonce : bytes)
             (w : World),
         length nonce = 24 ->
         V2Local._generate_nonce nonce payload w
         = (wrap (EncryptError "Failed to generate internal nonce.")
              (blake2b_digest nonce 24 payload),
            append_call w [Blake2b nonce 24 payload])
         /\ forall msg,
             fst (V2Local.encrypt self payload footer ia nonce w)
             <> Raise (ValueError msg))
  /\ (forall seal (self : V4Local.t) (payload footer ia nonce : bytes)
             (w : World),
         nonce <> [] -> length nonce <> 32 ->
         V4Local.encrypt seal self payload footer ia nonce w
         = (Raise (ValueError "nonce must be 32 bytes long."), w))
  /\ (forall seal (self : V4Local.t) (payload footer ia nonce : bytes)
             (w : World),
         length nonce = 32 ->
         V4Local.encrypt seal self payload footer ia nonce w
         = seal self nonce payload footer ia w).
Proof.
  repeat split.
  - intros self payload footer ia nonce w Hne Hlen.
    apply V2LocalFacts.encrypt_raises.
    now apply V2LocalFacts.generate_nonce_rejects.
  - now apply V2LocalFacts.generate_nonce_seeded.
  - intros msg.
    pose proof (V2LocalFacts.generate_nonce_seeded nonce payload w H) as Hn.
    destruct (blake2b_digest nonce 24 payload) as [d | e]; cbn [wrap] in Hn.
    + rewrite (V2LocalFacts.encrypt_run self payload footer ia nonce w Hn).
      cbn [fst].
      destruct (aead_seal _ _ _ _) as [[c tag] | e]; discriminate.
    + rewrite (V2LocalFacts.encrypt_raises self payload footer ia nonce w Hn).
      discriminate.
  - intros seal self payload footer ia nonce w Hne Hlen.
    unfold V4Local.encrypt, bind.
    destruct nonce as [|x nonce]; [contradiction|].
    apply Nat.eqb_neq in Hlen. cbn [truthy]. now rewrite Hlen.
  - intros seal self payload footer ia nonce w Hlen.
    unfold V4Local.encrypt, bind.
    rewrite KeyFacts.truthy_length, Hlen. reflexivity.
Qed.

(** C6.  The AEAD nonce of v2 local is the 24-byte BLAKE2b hash of the
    payload keyed by the seed: by the caller's 24-byte seed, with nothing
    drawn, or, when the seed is empty, by 24 fresh bytes of the random
    source.  The AEAD itself is keyed by the key of the instance, so what
    is random per call is the hash key; and for a given seed the nonce
    depends on seed and payload alone. *)
Theorem nonce_is_keyed_hash_of_payload :
  Blake2bTotal P ->
  (forall (s m : bytes) (w : World),
      length s = 24 ->
      exists d,
        blake2b_digest s 24 m = Ok d /\ length d = 24
        /\ V2Local._generate_nonce s m w
           = (Ok d, append_call w [Blake2b s 24 m]))
  /\ (forall (m : bytes) (w : World),
         exists d,
           blake2b_digest (peek w 24) 24 m = Ok d /\ length d = 24
           /\ V2Local._generate_nonce [] m w
              = (Ok d,
                 mkWorld (entropy w) (cursor w + 24)
                   (trace w ++ [TokenBytes 24; Blake2b (peek w 24) 24 m])))
  /\ (forall (self : V2Local.t) (payload footer ia nonce d : bytes)
             (w w1 : World),
         V2Local._generate_nonce nonce payload w = (Ok d, w1) ->
         trace (snd (V2Local.encrypt self payload footer ia nonce w))
         = trace w1
             ++ [ChaCha20Poly1305Seal (KeyInterface._key self) d
                   (Utils.pae [KeyInterface._header self; d; footer])
                   payload])
  /\ (forall (s m : bytes) (w w' : World),
         s <> [] ->
         fst (V2Local._generate_nonce s m w)
         = fst (V2Local._generate_nonce s m w')).
Proof.
  intros Hb. repeat split.
  - intros s m w Hlen.
    destruct (Hb s 24 m) as (d & Hd & Hl); [lia | lia |].
    exists d. rewrite V2LocalFacts.generate_nonce_seeded by exact Hlen.
    now rewrite Hd.
  - intros m w.
    destruct (Hb (peek w 24) 24 m) as (d & Hd & Hl);
      [rewrite RoundTrip.length_peek; lia | lia |].
    exists d. rewrite V2LocalFacts.generate_nonce_random. now rewrite Hd.
  - intros self payload footer ia nonce d w w1 Hn.
    now rewrite (V2LocalFacts.encrypt_run self payload footer ia nonce w Hn).
  - intros s m w w' Hne.
    destruct (Nat.eq_dec (length s) 24) as [Hlen | Hlen].
    + now rewrite !V2LocalFacts.generate_nonce_seeded by exact Hlen.
    + now rewrite !V2LocalFacts.generate_nonce_rejects by assumption.
Qed.

(** C7.  [V2Public.verify] raises ValueError when the payload has at most
    64 bytes; otherwise the message is the payload without its last 64
    bytes, the signature those 64 bytes, the check is made on
    pae([header, message, footer]) under the public key (derived when the
    instance holds a private key), a failed check raises VerifyError, from
    the InvalidSignature of the library, and a passed one returns the
    message. *)
Theorem verify_splits_and_checks
        (o : py_object) (self : V2Public.t)
        (payload footer ia : bytes) (w : World) :
  V2Public.__init__ o = Ok self ->
  (length payload <= 64 ->
   V2Public.verify self payload footer ia w
   = (Raise (ValueError "Invalid payload."), w))
  /\ (64 < length payload ->
      let message := firstn (length payload - 64) payload in
      let signature := skipn (length payload - 64) payload in
      let k := verifying_key (V2Public._key self) in
      let m2 := Utils.pae [V2Public._header self; message; footer] in
      payload = message ++ signature
      /\ length signature = 64
      /\ message = Slice.slice_to payload (Z.of_nat (length payload) - 64)
      /\ signature = Slice.slice_from payload (-64)
      /\ V2Public.verify self payload footer ia w
         = (if ed25519_verify k signature m2 then Ok message
            else Raise (From (VerifyError "Failed to verify.")
                          (LibraryError "InvalidSignature")),
            append_call w [Ed25519Verify k signature m2])).
Proof.
  intros Hnew.
  apply KeyFacts.V2Public_new_ok in Hnew as (k & -> & ->).
  split.
  - intros H. now apply V2PublicFacts.verify_short.
  - intros H message signature vk m2. repeat split.
    + symmetry. apply firstn_skipn.
    + unfold signature. rewrite length_skipn. lia.
    + change 64%Z with (Z.of_nat 64).
      now rewrite SliceFacts.slice_to_prefix by lia.
    + change (-64)%Z with (- Z.of_nat 64)%Z.
      now rewrite SliceFacts.slice_suffix by lia.
    + now apply V2PublicFacts.verify_run.
Qed.


Lemma paserk_id_prefix (h p i : str) (w : World) :
  fst (paserk_id h p w) = Ok i -> exists s, i = (h ++ s)%string.
Proof.
  unfold paserk_id. cbn [fst].
  destruct (blake2b_digest _ _ _); [|discriminate].
  intros [= <-]. eauto.
Qed.

(** C9.  [to_paserk_id] is the prefix followed by the base64url form of
    the 33-byte unkeyed BLAKE2b hash of prefix + to_paserk(key), the
    prefix being "k2.lid." for a local key, "k2.pid." for a public key
    object and "k2.sid." for a private one; so the identifier of a key is
    the same whenever it is computed, and keys of different roles never
    share an identifier, whatever their bytes. *)
Theorem paserk_id_is_prefixed_hash :
  (forall (self : V2Local.t) (w : World),
      V2Local.to_paserk_id self w
      = paserk_id "k2.lid." (LocalKey.to_paserk self) w)
  /\ (forall (self : V2Public.t) (w : World),
         V2Public.to_paserk_id self w
         = paserk_id (id_prefix (V2Public._key self))
             (V2Public.to_paserk self) w)
  /\ (forall (l : V2Local.t) (p : V2Public.t) (w w' : World),
         fst (V2Local.to_paserk_id l w) = fst (V2Local.to_paserk_id l w')
         /\ fst (V2Public.to_paserk_id p w)
            = fst (V2Public.to_paserk_id p w'))
  /\ (forall (l : V2Local.t) (p s : V2Public.t) (raw seed : bytes)
             (w1 w2 w3 : World) (i1 i2 i3 : str),
         V2Public._key p = Ed25519PublicKey raw ->
         V2Public._key s = Ed25519PrivateKey seed ->
         fst (V2Local.to_paserk_id l w1) = Ok i1 ->
         fst (V2Public.to_paserk_id p w2) = Ok i2 ->
         fst (V2Public.to_paserk_id s w3) = Ok i3 ->
         i1 <> i2 /\ i1 <> i3 /\ i2 <> i3).
Proof.
  assert (HL : forall (self : V2Local.t) (w : World),
             V2Local.to_paserk_id self w
             = paserk_id "k2.lid." (LocalKey.to_paserk self) w).
  { intros self w. unfold V2Local.to_paserk_id, paserk_id.
    cbv [hashlib_blake2b bind log lift ret append_call].
    cbn [entropy cursor trace].
    now destruct (blake2b_digest _ _ _). }
  assert (HP : forall (self : V2Public.t) (w : World),
             V2Public.to_paserk_id self w
             = paserk_id (id_prefix (V2Public._key self))
                 (V2Public.to_paserk self) w).
  { intros self w. unfold V2Public.to_paserk_id, paserk_id, id_prefix.
    cbv [hashlib_blake2b bind log lift ret append_call].
    cbn [entropy cursor trace].
    destruct (V2Public._key self); now destruct (blake2b_digest _ _ _). }
  split; [exact HL|]. split; [exact HP|]. split.
  - intros l p w w'. now rewrite !HL, !HP.
  - intros l p s raw seed w1 w2 w3 i1 i2 i3 Hp Hs.
    rewrite HL, !HP, Hp, Hs. cbn [id_prefix].
    intros H1 H2 H3.
    apply paserk_id_prefix in H1 as [s1 ->].
    apply paserk_id_prefix in H2 as [s2 ->].
    apply paserk_id_prefix in H3 as [s3 ->].
    repeat split; discriminate.
Qed.

(** C10.  No operation of version 2 looks at [implicit_assertion]: with
    everything else fixed, [encrypt], [decrypt], [sign] and [verify] give
    the same result and leave the same world under any two values of it. *)
Theorem implicit_assertion_is_ignored :
  (forall (self : V2Local.t) (payload footer nonce a a' : bytes) (w : World),
      V2Local.encrypt self payload footer a nonce w
      = V2Local.encrypt self payload footer a' nonce w)
  /\ (forall (self : V2Local.t) (payload footer a a' : bytes) (w : World),
         V2Local.decrypt self payload footer a w
         = V2Local.decrypt self payload footer a' w)
  /\ (forall (self : V2Public.t) (payload footer a a' : bytes) (w : World),
         V2Public.sign self payload footer a w
         = V2Public.sign self payload footer a' w)
  /\ (forall (self : V2Public.t) (payload footer a a' : bytes) (w : World),
         V2Public.verify self payload footer a w
         = V2Public.verify self payload footer a' w).
Proof. repeat split. Qed.

End Operations.

(** * Concrete runs *)

Module Runs.

Import Samples.

(** C1 on the key of 32 zero bytes, the payload b"Hello world!", no footer
    and no seed. *)
Lemma round_trip_v2_witness :
  V2Local.__init__ (Bytes (repeat x00 32)) = Ok zeros
  /\ exists n c tag w1,
      length n = 24 /\ length tag = 16
      /\ V2Local.encrypt (P := Standin.primitives) zeros hello [] [] []
           Standin.world0
         = (Ok (frame (KeyInterface._header zeros) (n ++ c ++ tag) []), w1)
      /\ Pyseto.encode (P := Standin.primitives) (Local zeros) hello [] []
           [] Standin.world0
         = (Ok (frame (KeyInterface._header zeros) (n ++ c ++ tag) []), w1)
      /\ (forall w2,
             fst (V2Local.decrypt (P := Standin.primitives) zeros
                    (n ++ c ++ tag) [] [] w2)
             = Ok hello)
      /\ (forall w2,
             fst (Pyseto.decode (P := Standin.primitives) (Local zeros)
                    (frame (KeyInterface._header zeros) (n ++ c ++ tag) [])
                    [] w2)
             = Ok (hello, [])).
Proof.
  split; [reflexivity|].
  apply (proj1 (round_trip_v2 (P := Standin.primitives)
                  StandinFacts.blake2b_total StandinFacts.seal_total
                  StandinFacts.open_seal StandinFacts.sign_total
                  StandinFacts.verify_sign))
    with (key := Bytes (repeat x00 32)).
  - reflexivity.
  - left. reflexivity.
Defined.

(** C1, the claim as written fails: the signature of the empty payload is
    64 bytes long, [encode] frames exactly these as the payload bytes of the
    token, and [verify], hence [decode], refuses payload bytes that are not
    longer than a signature. *)
Lemma round_trip_counterexample :
  let sig := Standin.signature_of (repeat x07 32)
               (Utils.pae [b "v2.public."; []; []]) in
  let w1 := append_call Standin.world0
              [Ed25519Sign (repeat x07 32)
                 (Utils.pae [b "v2.public."; []; []])] in
  let token := frame (b "v2.public.") ([] ++ sig) [] in
  V2Public.__init__ (Ed25519 (Ed25519PrivateKey (repeat x07 32))) = Ok signer
  /\ V2Public.sign (P := Standin.primitives) signer [] [] []
       Standin.world0
     = (Ok sig, w1)
  /\ length ([] ++ sig) = 64
  /\ V2Public.verify (P := Standin.primitives) signer ([] ++ sig) [] [] w1
     = (Raise (ValueError "Invalid payload."), w1)
  /\ Pyseto.encode (P := Standin.primitives) (Public signer) [] [] [] []
       Standin.world0
     = (Ok token, w1)
  /\ Pyseto.decode (P := Standin.primitives) (Public signer) token [] w1
     = (Raise (ValueError "Invalid payload."), w1).
Proof.
  intros sig w1 token.
  assert (Hsign : V2Public.sign (P := Standin.primitives) signer [] [] []
                    Standin.world0
                  = (Ok sig, w1)).
  { rewrite (V2PublicFacts.sign_run (P := Standin.primitives) signer
               (seed := repeat x07 32) [] [] [] Standin.world0 eq_refl).
    reflexivity. }
  assert (Hlen : length ([] ++ sig) = 64)
    by apply UtilsFacts.length_le_bytes.
  assert (Hver : V2Public.verify (P := Standin.primitives) signer
                   ([] ++ sig) [] [] w1
                 = (Raise (ValueError "Invalid payload."), w1)).
  { apply V2PublicFacts.verify_short. rewrite Hlen. apply Nat.le_refl. }
  split; [reflexivity|]. split; [exact Hsign|]. split; [exact Hlen|].
  split; [exact Hver|]. split.
  - unfold Pyseto.encode, bind. rewrite Hsign. reflexivity.
  - change token
      with (frame (Pyseto.header (Public signer)) ([] ++ sig) []).
    rewrite (PysetoFacts.decode_framed (P := Standin.primitives)
               (Public signer) (purpose := b "public") ([] ++ sig) [] [] w1);
      [| now apply FramingFacts.no_dot_literal | reflexivity].
    unfold bind. cbn [adapter_open]. now rewrite Hver.
Qed.



(** The four causes the specification names, on the stand-in: another key,
    a changed byte of the ciphertext, another footer, a changed byte of the
    tag.  Each fails the tag check of the library. *)
Example decrypt_four_causes :
  let failed := Raise (From (DecryptError "Failed to decrypt.")
                         (LibraryError "MAC check failed")) in
  fst (V2Local.decrypt (P := Standin.primitives) ones sealed_hello [] []
         Standin.world0) = failed
  /\ fst (V2Local.decrypt (P := Standin.primitives) zeros
            (overwrite 24 sealed_hello) [] [] Standin.world0) = failed
  /\ fst (V2Local.decrypt (P := Standin.primitives) zeros sealed_hello
            (b "footer") [] Standin.world0) = failed
  /\ fst (V2Local.decrypt (P := Standin.primitives) zeros
            (overwrite 51 sealed_hello) [] [] Standin.world0) = failed.
Proof. repeat split; vm_compute; reflexivity. Qed.

(** C3 (as amended) on a private key and the payload b"Hello world!". *)
Lemma sign_returns_signature_witness :
  V2Public._key signer = Ed25519PrivateKey (repeat x07 32)
  /\ V2Public.sign (P := Standin.primitives) signer hello [] []
       Standin.world0
     = (Ok (Standin.signature_of (repeat x07 32)
              (Utils.pae [b "v2.public."; hello; []])),
        append_call Standin.world0
          [Ed25519Sign (repeat x07 32)
             (Utils.pae [b "v2.public."; hello; []])]).
Proof.
  split; [reflexivity|].
  exact (proj1 (sign_returns_signature (P := Standin.primitives)
                  signer hello [] [] Standin.world0)
           (repeat x07 32) eq_refl).
Defined.

(** C3, the claim as written fails: on the payload b"Hello world!" [sign]
    returns the 64 bytes of the signature, not the 76 bytes of the payload
    followed by the signature. *)
Lemma sign_counterexample :
  let m2 := Utils.pae [V2Public._header signer; hello; []] in
  let sig := Standin.signature_of (repeat x07 32) m2 in
  V2Public.__init__ (Ed25519 (Ed25519PrivateKey (repeat x07 32))) = Ok signer
  /\ ed25519_sign (Primitives := Standin.primitives) (repeat x07 32) m2
     = Ok sig
  /\ V2Public.sign (P := Standin.primitives) signer hello [] []
       Standin.world0
     = (Ok sig, append_call Standin.world0 [Ed25519Sign (repeat x07 32) m2])
  /\ length sig = 64
  /\ length (hello ++ sig) = 76
  /\ sig <> hello ++ sig.
Proof.
  intros m2 sig.
  assert (Hlen : length sig = 64) by apply UtilsFacts.length_le_bytes.
  split; [reflexivity|]. split; [reflexivity|]. split; [|split; [|split]].
  - rewrite (V2PublicFacts.sign_run (P := Standin.primitives) signer
               (seed := repeat x07 32) hello [] [] Standin.world0 eq_refl).
    reflexivity.
  - exact Hlen.
  - rewrite length_app, Hlen. reflexivity.
  - intros H. apply (f_equal (@length byte)) in H.
    rewrite length_app, Hlen in H. discriminate H.
Qed.


(** C5 on a seed of one byte. *)
Lemma nonce_seed_length_enforced_witness :
  [x2a] <> [] /\ length [x2a] <> 24
  /\ V2Local.encrypt (P := Standin.primitives) zeros hello [] [] [x2a]
       Standin.world0
     = (Raise (ValueError "nonce must be 24 bytes long."), Standin.world0).
Proof.
  assert (H1 : [x2a] <> []) by discriminate.
  assert (H2 : length [x2a] <> 24) by discriminate.
  split; [exact H1|]. split; [exact H2|].
  exact (proj1 (nonce_seed_length_enforced (P := Standin.primitives))
           zeros hello [] [] [x2a] Standin.world0 H1 H2).
Defined.

(** C6 on a seed of 24 bytes. *)
Lemma nonce_is_keyed_hash_witness :
  length (repeat x2a 24) = 24
  /\ exists d,
      blake2b_digest (Primitives := Standin.primitives) (repeat x2a 24) 24
        hello = Ok d
      /\ length d = 24
      /\ V2Local._generate_nonce (P := Standin.primitives) (repeat x2a 24)
           hello Standin.world0
         = (Ok d,
            append_call Standin.world0 [Blake2b (repeat x2a 24) 24 hello]).
Proof.
  split; [reflexivity|].
  apply (proj1 (nonce_is_keyed_hash_of_payload (P := Standin.primitives)
                  StandinFacts.blake2b_total)).
  reflexivity.
Defined.

(** C7 on payload bytes of length 64. *)
Lemma verify_splits_and_checks_witness :
  V2Public.__init__ (Ed25519 (Ed25519PublicKey (rev (repeat x07 32))))
  = Ok verifier
  /\ length (repeat x01 64) <= 64
  /\ V2Public.verify (P := Standin.primitives) verifier (repeat x01 64) []
       [] Standin.world0
     = (Raise (ValueError "Invalid payload."), Standin.world0).
Proof.
  assert (H : length (repeat x01 64) <= 64)
    by (rewrite repeat_length; constructor).
  split; [reflexivity|]. split; [exact H|].
  exact (proj1 (verify_splits_and_checks (P := Standin.primitives)
                  (Ed25519 (Ed25519PublicKey (rev (repeat x07 32))))
                  (self := verifier) (repeat x01 64) [] []
                  Standin.world0 eq_refl) H).
Defined.

(** C8 on the key of 32 zero bytes. *)
Lemma paserk_round_trip_witness :
  V2Local.__init__ (Bytes (repeat x00 32)) = Ok zeros
  /\ length (KeyInterface._key zeros) = 32
  /\ V2Local.from_paserk (LocalKey.to_paserk zeros) = Ok zeros
  /\ Key.from_paserk (Key.to_paserk (Local zeros)) = Ok (Local zeros).
Proof.
  split; [reflexivity|].
  apply (proj1 paserk_round_trip) with (key := Bytes (repeat x00 32)).
  reflexivity.
Defined.

(** C9 on a local key, a public key and a private key. *)
Lemma paserk_id_witness :
  exists i1 i2 i3,
    fst (V2Local.to_paserk_id (P := Standin.primitives) zeros
           Standin.world0) = Ok i1
    /\ fst (V2Public.to_paserk_id (P := Standin.primitives) verifier
              Standin.world0) = Ok i2
    /\ fst (V2Public.to_paserk_id (P := Standin.primitives) signer
              Standin.world0) = Ok i3
    /\ i1 <> i2 /\ i1 <> i3 /\ i2 <> i3.
Proof.
  do 3 eexists.
  assert (H1 : forall x, x = x :> result string) by reflexivity.
  split; [apply H1|]. split; [apply H1|]. split; [apply H1|].
  apply (proj2 (proj2 (proj2
           (paserk_id_is_prefixed_hash (P := Standin.primitives)))))
    with (l := zeros) (p := verifier) (s := signer)
         (raw := rev (repeat x07 32)) (seed := repeat x07 32)
         (w1 := Standin.world0) (w2 := Standin.world0)
         (w3 := Standin.world0);
    reflexivity.
Defined.

(** The example of the specification: a key of 32 zero bytes, the payload
    b"Hello world!", no footer. *)
Example hello_world_round_trip :
  exists token w1,
    Pyseto.encode (P := Standin.primitives) (Local zeros) hello [] [] []
      Standin.world0
    = (Ok token, w1)
    /\ fst (Pyseto.decode (P := Standin.primitives) (Local zeros) token []
              w1)
       = Ok (hello, [])
    /\ fst (Pyseto.decode (P := Standin.primitives) (Local ones) token []
              w1)
       = Raise (From (DecryptError "Failed to decrypt.")
                  (LibraryError "MAC check failed")).
Proof.
  do 2 eexists. split; [vm_compute; reflexivity|].
  split; vm_compute; reflexivity.
Qed.

Example pae_empty : Utils.pae [] = repeat x00 8.
  Proof. reflexivity. Qed.

Example pae_test :
  Utils.pae [b "test"]
  = [x01; x00; x00; x00; x00; x00; x00; x00;
     x04; x00; x00; x00; x00; x00; x00; x00] ++ b "test".
Proof. reflexivity. Qed.

Example b64_hello :
  Utils.base64url_encode (b "Hello world!") = b "SGVsbG8gd29ybGQh".
Proof. reflexivity. Qed.

Example b64_tail :
  Utils.base64url_decode "SGVsbG8" = Ok (b "Hello").
Proof. reflexivity. Qed.

Example split_example : Utils.split "." "k2.local.AAAA" = ["k2"; "local"; "AAAA"]%string.
Proof. reflexivity. Qed.

Example paserk_of_zeros :
  LocalKey.to_paserk zeros
  = "k2.local.AAAAAAAAAAAAAAAAAAAAAAAAAAAAAAAAAAAAAAAAAAA"%string.
Proof. reflexivity. Qed.

End Runs.


(** * Further properties of v2.py *)

(** ** V2Local.encrypt and V2Local.decrypt *)

Module EncryptFacts.

Section Run.
Context {P : Primitives}.

(** The key under which [_generate_nonce] hashes: the seed, or the next 24
    bytes of the random source. *)
Lemma generate_nonce_cases (nonce msg : bytes) (w : World) :
  (nonce <> [] /\ length nonce <> 24
   /\ V2Local._generate_nonce nonce msg w
      = (Raise (ValueError "nonce must be 24 bytes long."), w))
  \/ (length nonce = 24
      /\ V2Local._generate_nonce nonce msg w
         = (wrap (EncryptError "Failed to generate internal nonce.")
              (blake2b_digest nonce 24 msg),
            append_call w [Blake2b nonce 24 msg]))
  \/ (nonce = []
      /\ V2Local._generate_nonce nonce msg w
         = (wrap (EncryptError "Failed to generate internal nonce.")
              (blake2b_digest (peek w 24) 24 msg),
            mkWorld (entropy w) (cursor w + 24)
              (trace w ++ [TokenBytes 24; Blake2b (peek w 24) 24 msg]))).
Proof.
  destruct nonce as [|x nonce].
  - right. right. split; [reflexivity|].
    apply V2LocalFacts.generate_nonce_random.
  - destruct (Nat.eq_dec (length (x :: nonce)) 24) as [H | H].
    + right. left. split; [exact H|].
      now apply V2LocalFacts.generate_nonce_seeded.
    + left. split; [discriminate|]. split; [exact H|].
      apply V2LocalFacts.generate_nonce_rejects; [discriminate | exact H].
Qed.

(** The outcome of [encrypt] once the key of the hash is known. *)
Lemma encrypt_after_hash
      (self : V2Local.t) (payload footer ia nonce hk : bytes)
      (w0 w1 : World) :
  V2Local._generate_nonce nonce payload w0
  = (wrap (EncryptError "Failed to generate internal nonce.")
       (blake2b_digest hk 24 payload), w1) ->
  fst (V2Local.encrypt self payload footer ia nonce w0)
  = match blake2b_digest hk 24 payload with
    | Ok d =>
        match aead_seal (KeyInterface._key self) d
                (Utils.pae [KeyInterface._header self; d; footer])
                payload with
        | Ok (c, tag) =>
            Ok (frame (KeyInterface._header self) (d ++ c ++ tag) footer)
        | Raise err => Raise (From (EncryptError "Failed to encrypt.") err)
        end
    | Raise err =>
        Raise (From (EncryptError "Failed to generate internal nonce.") err)
    end
  /\ entropy (snd (V2Local.encrypt self payload footer ia nonce w0))
     = entropy w1
  /\ cursor (snd (V2Local.encrypt self payload footer ia nonce w0))
     = cursor w1.
Proof.
  intros Hn.
  destruct (blake2b_digest hk 24 payload) as [d | e]; cbn [wrap] in Hn.
  - rewrite (V2LocalFacts.encrypt_run self payload footer ia nonce w0 Hn).
    cbn [fst snd append_call entropy cursor]. auto.
  - rewrite (V2LocalFacts.encrypt_raises self payload footer ia nonce w0 Hn).
    cbn [fst snd]. auto.
Qed.

End Run.

End EncryptFacts.

Section EncryptProperties.
Context {P : Primitives}.

(** X1.  Whatever the libraries raise, [V2Local.encrypt] raises one of three
    errors: ValueError for a seed of the wrong length, with the world left
    as it was; EncryptError "Failed to generate internal nonce." when the
    hash fails, and then the AEAD is never called; EncryptError "Failed to
    encrypt." when the AEAD fails.  Either EncryptError is raised from the
    exception of the library. *)
Theorem encrypt_raises_only_three_errors
        (self : V2Local.t) (payload footer ia nonce : bytes) (w : World)
        (e : exn) :
  let hash_key := if truthy nonce then nonce else peek w 24 in
  let drawn := if truthy nonce then [] else [TokenBytes 24] in
  fst (V2Local.encrypt self payload footer ia nonce w) = Raise e ->
  (e = ValueError "nonce must be 24 bytes long."
   /\ nonce <> [] /\ length nonce <> 24
   /\ snd (V2Local.encrypt self payload footer ia nonce w) = w)
  \/ ((exists e',
          e = From (EncryptError "Failed to generate internal nonce.") e'
          /\ blake2b_digest hash_key 24 payload = Raise e')
      /\ trace (snd (V2Local.encrypt self payload footer ia nonce w))
         = trace w ++ drawn ++ [Blake2b hash_key 24 payload])
  \/ (exists d,
          blake2b_digest hash_key 24 payload = Ok d
          /\ (exists e',
                 e = From (EncryptError "Failed to encrypt.") e'
                 /\ aead_seal (KeyInterface._key self) d
                      (Utils.pae [KeyInterface._header self; d; footer])
                      payload
                    = Raise e')
          /\ trace (snd (V2Local.encrypt self payload footer ia nonce w))
             = trace w ++ drawn
                 ++ [Blake2b hash_key 24 payload;
                     ChaCha20Poly1305Seal (KeyInterface._key self) d
                       (Utils.pae [KeyInterface._header self; d; footer])
                       payload]).
Proof.
  intros hash_key drawn.
  assert (Hout : forall w1,
             V2Local._generate_nonce nonce payload w
             = (wrap (EncryptError "Failed to generate internal nonce.")
                  (blake2b_digest hash_key 24 payload), w1) ->
             trace w1 = trace w ++ drawn ++ [Blake2b hash_key 24 payload] ->
             fst (V2Local.encrypt self payload footer ia nonce w) = Raise e ->
             ((exists e',
                  e = From (EncryptError "Failed to generate internal nonce.")
                        e'
                  /\ blake2b_digest hash_key 24 payload = Raise e')
              /\ trace (snd (V2Local.encrypt self payload footer ia nonce w))
                 = trace w ++ drawn ++ [Blake2b hash_key 24 payload])
             \/ (exists d,
                     blake2b_digest hash_key 24 payload = Ok d
                     /\ (exists e',
                            e = From (EncryptError "Failed to encrypt.") e'
                            /\ aead_seal (KeyInterface._key self) d
                                 (Utils.pae
                                    [KeyInterface._header self; d; footer])
                                 payload
                               = Raise e')
                     /\ trace
                          (snd (V2Local.encrypt self payload footer ia nonce
                                  w))
                        = trace w ++ drawn
                            ++ [Blake2b hash_key 24 payload;
                                ChaCha20Poly1305Seal (KeyInterface._key self)
                                  d
                                  (Utils.pae
                                     [KeyInterface._header self; d; footer])
                                  payload])).
  { intros w1 Hn Htr.
    destruct (blake2b_digest hash_key 24 payload) as [d | e'] eqn:Hd;
      cbn [wrap] in Hn.
    - rewrite (V2LocalFacts.encrypt_run self payload footer ia nonce w Hn).
      cbn [fst snd].
      destruct (aead_seal _ _ _ _) as [[c tag] | e''] eqn:Hs; [discriminate|].
      intros [= <-]. right.
      exists d. split; [reflexivity|]. split; [eauto|].
      cbn [append_call trace]. rewrite Htr, <- !app_assoc. reflexivity.
    - rewrite (V2LocalFacts.encrypt_raises self payload footer ia nonce w Hn).
      cbn [fst snd]. intros [= <-]. left.
      split; [eauto | exact Htr]. }
  destruct (EncryptFacts.generate_nonce_cases nonce payload w)
    as [(Hne & Hlen & Hn) | [(Hlen & Hn) | (Hnil & Hn)]].
  - rewrite (V2LocalFacts.encrypt_raises self payload footer ia nonce w Hn).
    cbn [fst snd]. intros [= <-]. left. auto.
  - assert (Ht : truthy nonce = true)
      by (rewrite KeyFacts.truthy_length, Hlen; reflexivity).
    subst hash_key drawn. rewrite Ht in *. intros He. right.
    exact (Hout _ Hn eq_refl He).
  - subst nonce hash_key drawn. cbn [truthy] in *. intros He. right.
    exact (Hout _ Hn eq_refl He).
Qed.

(** X2.  [V2Local.encrypt] never alters the random source beyond reading it:
    it draws exactly 24 bytes when no seed is given and none when one is.
    So with a seed its outcome is the same in every world, the same token
    and the same nonce again; without one it depends on the world only
    through the 24 bytes drawn. *)
Theorem encrypt_entropy_use
        (self : V2Local.t) (payload footer ia nonce : bytes) (w : World) :
  entropy (snd (V2Local.encrypt self payload footer ia nonce w)) = entropy w
  /\ cursor (snd (V2Local.encrypt self payload footer ia nonce w))
     = cursor w + (if truthy nonce then 0 else 24)
  /\ (nonce <> [] ->
      forall w',
        fst (V2Local.encrypt self payload footer ia nonce w)
        = fst (V2Local.encrypt self payload footer ia nonce w'))
  /\ (forall w',
         peek w 24 = peek w' 24 ->
         fst (V2Local.encrypt self payload footer ia [] w)
         = fst (V2Local.encrypt self payload footer ia [] w')).
Proof.
  split; [|split; [|split]].
  - destruct (EncryptFacts.generate_nonce_cases nonce payload w)
      as [(_ & _ & Hn) | [(_ & Hn) | (_ & Hn)]].
    + now rewrite (V2LocalFacts.encrypt_raises self payload footer ia nonce w
                     Hn).
    + now destruct (@EncryptFacts.encrypt_after_hash _ self _ footer ia _ _ _ _ Hn)
        as (_ & -> & _).
    + now destruct (@EncryptFacts.encrypt_after_hash _ self _ footer ia _ _ _ _ Hn)
        as (_ & -> & _).
  - destruct (EncryptFacts.generate_nonce_cases nonce payload w)
      as [(Hne & _ & Hn) | [(Hlen & Hn) | (-> & Hn)]].
    + rewrite (V2LocalFacts.encrypt_raises self payload footer ia nonce w Hn).
      destruct nonce; [contradiction|]. cbn [snd truthy]. lia.
    + destruct (@EncryptFacts.encrypt_after_hash _ self _ footer ia _ _ _ _ Hn)
        as (_ & _ & ->).
      rewrite KeyFacts.truthy_length, Hlen. cbn [append_call cursor]. simpl.
      lia.
    + destruct (@EncryptFacts.encrypt_after_hash _ self _ footer ia _ _ _ _ Hn)
        as (_ & _ & ->).
      reflexivity.
  - intros Hne w'.
    destruct (EncryptFacts.generate_nonce_cases nonce payload w)
      as [(_ & Hlen & Hn) | [(Hlen & Hn) | (-> & _)]]; [| |contradiction].
    + rewrite (V2LocalFacts.encrypt_raises self payload footer ia nonce w Hn).
      now rewrite (V2LocalFacts.encrypt_raises self payload footer ia nonce w'
                     (V2LocalFacts.generate_nonce_rejects payload w' Hne Hlen)).
    + destruct (@EncryptFacts.encrypt_after_hash _ self _ footer ia _ _ _ _ Hn)
        as (-> & _).
      now destruct (@EncryptFacts.encrypt_after_hash _ self _ footer ia _ _ _ _
                      (V2LocalFacts.generate_nonce_seeded nonce payload w'
                         Hlen))
        as (-> & _).
  - intros w' Hpeek.
    destruct (@EncryptFacts.encrypt_after_hash _ self _ footer ia _ _ _ _
                (V2LocalFacts.generate_nonce_random payload w))
      as (-> & _).
    destruct (@EncryptFacts.encrypt_after_hash _ self _ footer ia _ _ _ _
                (V2LocalFacts.generate_nonce_random payload w'))
      as (-> & _).
    now rewrite Hpeek.
Qed.

End EncryptProperties.

Section DecryptProperties.
Context {P : Primitives}.

(** X3.  [V2Local.decrypt] does not check the length of its payload.  Below
    40 bytes, the length of a nonce and a tag, the ciphertext it hands to
    the library is empty and nonce and tag overlap in the payload; up to 16
    bytes, nonce and tag are both the whole payload. *)
Theorem decrypt_short_payload
        (self : V2Local.t) (payload footer ia : bytes) (w : World) :
  length payload < 40 ->
  let n := firstn 24 payload in
  let tag := skipn (length payload - 16) payload in
  let pre_auth := Utils.pae [KeyInterface._header self; n; footer] in
  V2Local.decrypt self payload footer ia w
  = (wrap (DecryptError "Failed to decrypt.")
       (aead_open (KeyInterface._key self) n pre_auth [] tag),
     append_call w
       [ChaCha20Poly1305Open (KeyInterface._key self) n pre_auth [] tag])
  /\ (payload <> [] -> length payload < length n + length tag)
  /\ (length payload <= 16 -> n = payload /\ tag = payload).
Proof.
  intros Hlen n tag pre_auth.
  assert (Hc : Slice.slice payload 24 (Z.of_nat (length payload) - 16) = []).
  { change 24%Z with (Z.of_nat 24). change 16%Z with (Z.of_nat 16).
    rewrite (SliceFacts.slice_middle payload (i := 24) (k := 16)) by lia.
    apply skipn_all2. rewrite length_firstn. lia. }
  split; [|split].
  - rewrite V2LocalFacts.decrypt_run. cbv zeta. rewrite Hc.
    change 24%Z with (Z.of_nat 24).
    change (-16)%Z with (- Z.of_nat 16)%Z.
    rewrite (SliceFacts.slice_prefix payload 24).
    rewrite (SliceFacts.slice_suffix payload (k := 16)) by lia.
    reflexivity.
  - intros Hne. unfold n, tag. rewrite length_firstn, length_skipn.
    assert (0 < length payload)
      by (destruct payload; [contradiction | apply Nat.lt_0_succ]).
    lia.
  - intros H16. unfold n, tag. split.
    + apply firstn_all2. lia.
    + replace (length payload - 16) with 0 by lia. reflexivity.
Qed.

End DecryptProperties.

(** ** V2Public.sign and V2Public.verify *)

Section SignVerifyProperties.
Context {P : Primitives}.

(** X4.  What a private key signs, the key itself and the instance that
    holds only its public key both verify: for a payload that is not empty,
    [verify] on payload || signature returns the payload under either. *)
Theorem signature_verifies_under_both_keys
        (seed : bytes) (priv pub : V2Public.t)
        (payload footer ia : bytes) (w : World) :
  SignTotal P -> VerifySign P ->
  V2Public.__init__ (Ed25519 (Ed25519PrivateKey seed)) = Ok priv ->
  V2Public.__init__ (Ed25519 (Ed25519PublicKey (ed25519_public seed)))
  = Ok pub ->
  length seed = 32 ->
  payload <> [] ->
  exists sig,
    fst (V2Public.sign priv payload footer ia w) = Ok sig
    /\ length sig = 64
    /\ (forall w',
           fst (V2Public.verify priv (payload ++ sig) footer ia w')
           = Ok payload)
    /\ (forall w',
           fst (V2Public.verify pub (payload ++ sig) footer ia w')
           = Ok payload).
Proof.
  intros Hg Hv Hpriv Hpub Hlen Hne.
  apply KeyFacts.V2Public_new_ok in Hpriv as (k & [= <-] & ->).
  apply KeyFacts.V2Public_new_ok in Hpub as (k & [= <-] & ->).
  set (priv := V2Public.mk 2 "public" (b "v2.public.")
                 (Ed25519PrivateKey seed) 64).
  set (pub := V2Public.mk 2 "public" (b "v2.public.")
                (Ed25519PublicKey (ed25519_public seed)) 64).
  destruct (Hg seed (Utils.pae [V2Public._header priv; payload; footer]) Hlen)
    as (sig & Hsig & Hls).
  exists sig.
  rewrite (V2PublicFacts.sign_run priv (seed := seed) payload footer ia w
             eq_refl).
  cbv zeta. rewrite Hsig. cbn [wrap fst].
  split; [reflexivity|]. split; [exact Hls|].
  assert (Hlong : 64 < length (payload ++ sig)).
  { rewrite length_app, Hls. destruct payload; [contradiction|simpl; lia]. }
  assert (Hcut : firstn (length (payload ++ sig) - 64) (payload ++ sig)
                 = payload
                 /\ skipn (length (payload ++ sig) - 64) (payload ++ sig)
                    = sig).
  { replace (length (payload ++ sig) - 64) with (length payload)
      by (rewrite length_app; lia).
    rewrite firstn_app, firstn_all, Nat.sub_diag, skipn_app, skipn_all,
      Nat.sub_diag.
    cbn [firstn skipn app]. now rewrite app_nil_r. }
  destruct Hcut as [Hm Hs].
  split; intros w'.
  - rewrite (V2PublicFacts.verify_run priv (payload ++ sig) footer ia w'
               eq_refl Hlong).
    cbv zeta. rewrite Hm, Hs. cbn [verifying_key V2Public._key priv].
    now rewrite (Hv _ _ _ Hsig).
  - rewrite (V2PublicFacts.verify_run pub (payload ++ sig) footer ia w'
               eq_refl Hlong).
    cbv zeta. rewrite Hm, Hs. cbn [verifying_key V2Public._key pub].
    change (V2Public._header pub) with (V2Public._header priv).
    now rewrite (Hv _ _ _ Hsig).
Qed.

(** X5.  [V2Public.verify] returns a message only when the library has
    accepted the last 64 bytes of the payload as a signature of
    pae([header, message, footer]); the message is what precedes them and
    is never empty.  It raises nothing but ValueError "Invalid payload.",
    before any call, and VerifyError, from the InvalidSignature of the
    library. *)
Theorem verify_outcomes
        (o : py_object) (self : V2Public.t)
        (payload footer ia : bytes) (w : World) :
  V2Public.__init__ o = Ok self ->
  (forall m,
      fst (V2Public.verify self payload footer ia w) = Ok m ->
      m <> []
      /\ exists sig,
          payload = m ++ sig /\ length sig = 64
          /\ ed25519_verify (verifying_key (V2Public._key self)) sig
               (Utils.pae [V2Public._header self; m; footer])
             = true)
  /\ (forall e,
         fst (V2Public.verify self payload footer ia w) = Raise e ->
         (e = ValueError "Invalid payload."
          /\ length payload <= 64
          /\ snd (V2Public.verify self payload footer ia w) = w)
         \/ (e = From (VerifyError "Failed to verify.")
                    (LibraryError "InvalidSignature")
             /\ 64 < length payload)).
Proof.
  intros Hnew.
  apply KeyFacts.V2Public_new_ok in Hnew as (k & -> & ->).
  set (self := V2Public.mk 2 "public" (b "v2.public.") k 64).
  destruct (Nat.le_gt_cases (length payload) 64) as [Hshort | Hlong].
  - rewrite (V2PublicFacts.verify_short self payload footer ia w Hshort).
    cbn [fst snd]. split; [discriminate|].
    intros e [= <-]. left. auto.
  - rewrite (V2PublicFacts.verify_run self payload footer ia w eq_refl Hlong).
    cbv zeta. cbn [fst snd].
    destruct (ed25519_verify _ _ _) eqn:Hv.
    + split; [|discriminate].
      intros m [= <-]. split.
      * intros Hnil. apply (f_equal (@length byte)) in Hnil.
        rewrite length_firstn in Hnil. simpl in Hnil. lia.
      * exists (skipn (length payload - 64) payload).
        split; [symmetry; apply firstn_skipn|].
        split; [rewrite length_skipn; lia | exact Hv].
    + split; [discriminate|].
      intros e [= <-]. right. auto.
Qed.

End SignVerifyProperties.

(** ** from_paserk, to_paserk and to_paserk_id *)

Module PaserkStrings.

Import Utils UtilsFacts FramingFacts.

(** A Python [str] without a dot. *)
Lemma split_plain (s : str) :
  no_dot (list_byte_of_string s) -> split "." s = [s].
Proof.
  intros H. rewrite <- (string_of_list_byte_of_string s) at 1.
  rewrite (split_no_dot H). now rewrite string_of_list_byte_of_string.
Qed.

Lemma split_first (s t : str) :
  no_dot (list_byte_of_string s) ->
  split "." (s ++ String "." t)%string = s :: split "." t.
Proof.
  intros H. rewrite <- (string_of_list_byte_of_string s) at 1.
  rewrite (split_dot t H). now rewrite string_of_list_byte_of_string.
Qed.

(** What [V2Public.to_paserk] writes, for any instance. *)
Lemma to_paserk_fragments (self : V2Public.t) :
  exists type,
    (type = "public" \/ type = "secret")%string
    /\ split "." (V2Public.to_paserk self)
       = ["k2"%string; type;
          decode_utf8
            (base64url_encode
               (match V2Public._key self with
                | Ed25519PublicKey raw => raw
                | Ed25519PrivateKey seed => seed
                end))].
Proof.
  unfold V2Public.to_paserk.
  destruct (V2Public._key self) as [raw | seed].
  - exists "public"%string. split; [now left|].
    change ("k2.public." ++ decode_utf8 (base64url_encode raw))%string
      with (string_of_list_byte (b "k2" ++ b "." ++ b "public" ++ b ".")
              ++ string_of_list_byte (base64url_encode raw))%string.
    rewrite <- string_of_list_byte_app.
    now rewrite split_paserk by (now apply no_dot_literal).
  - exists "secret"%string. split; [now right|].
    change ("k2.secret." ++ decode_utf8 (base64url_encode seed))%string
      with (string_of_list_byte (b "k2" ++ b "." ++ b "secret" ++ b ".")
              ++ string_of_list_byte (base64url_encode seed))%string.
    rewrite <- string_of_list_byte_app.
    now rewrite split_paserk by (now apply no_dot_literal).
Qed.

(** The fragments of an identifier. *)
Lemma id_fragments (type d : bytes) :
  no_dot type ->
  split "."
    (string_of_list_byte (b "k2" ++ b "." ++ type ++ b ".")
       ++ decode_utf8 (base64url_encode d))%string
  = ["k2"%string; string_of_list_byte type;
     decode_utf8 (base64url_encode d)].
Proof.
  intros Ht. unfold decode_utf8. rewrite <- string_of_list_byte_app.
  now apply split_paserk.
Qed.

(** The length of the base64url form. *)
Lemma length_base64url_encode (v : bytes) :
  4 * length v <= 3 * length (base64url_encode v) <= 4 * length v + 2.
Proof.
  induction v as [|x|x y|x y z l IH] using list_ind3.
  - simpl. lia.
  - simpl. unfold encode1.
    destruct (bits8 x) as [[[[[[[? ?] ?] ?] ?] ?] ?] ?]. simpl. lia.
  - simpl. unfold encode2.
    destruct (bits8 x) as [[[[[[[? ?] ?] ?] ?] ?] ?] ?].
    destruct (bits8 y) as [[[[[[[? ?] ?] ?] ?] ?] ?] ?]. simpl. lia.
  - change (base64url_encode (x :: y :: z :: l))
      with (encode3 x y z ++ base64url_encode l).
    rewrite length_app.
    assert (H : length (encode3 x y z) = 4).
    { unfold encode3.
      destruct (bits8 x) as [[[[[[[? ?] ?] ?] ?] ?] ?] ?].
      destruct (bits8 y) as [[[[[[[? ?] ?] ?] ?] ?] ?] ?].
      destruct (bits8 z) as [[[[[[[? ?] ?] ?] ?] ?] ?] ?].
      reflexivity. }
    rewrite H. cbn [length]. lia.
Qed.

Lemma length_string_of_list_byte (l : bytes) :
  String.length (string_of_list_byte l) = length l.
Proof.
  induction l as [|c l IH]; [reflexivity|].
  rewrite string_of_list_byte_cons. cbn [String.length length].
  now rewrite IH.
Qed.

Lemma length_append (s t : str) :
  String.length (s ++ t)%string = String.length s + String.length t.
Proof.
  induction s as [|c s IH]; [reflexivity|].
  cbn [String.append String.length]. now rewrite IH.
Qed.

End PaserkStrings.

(** X6.  Whatever string it is given, [V2Local.from_paserk] returns a key
    only when the first two fragments are "k2" and "local" and the third
    decodes to exactly 32 bytes, and the key it returns holds these bytes
    under the header of v2.local: no other way leads past the constructor's
    check. *)
Theorem local_from_paserk_sound (paserk : str) (self : V2Local.t) :
  V2Local.from_paserk paserk = Ok self ->
  exists f2 rest x,
    Utils.split "." paserk = "k2"%string :: "local"%string :: f2 :: rest
    /\ Utils.base64url_decode f2 = Ok x
    /\ length x = 32
    /\ self = KeyInterface.mk 2 "local" (b "v2.local.") x.
Proof.
  unfold V2Local.from_paserk.
  destruct (Utils.split "." paserk) as [|f0 [|f1 [|f2 rest]]];
    cbn [Utils.item nth_error rbind]; try discriminate.
  - destruct (f0 =? "k2")%string; discriminate.
  - destruct (f0 =? "k2")%string; cbn [negb]; [|discriminate].
    destruct (f1 =? "local")%string; discriminate.
  - destruct (f0 =? "k2")%string eqn:E0; cbn [negb]; [|discriminate].
    destruct (f1 =? "local")%string eqn:E1; cbn [negb]; [|discriminate].
    apply String.eqb_eq in E0, E1. subst f0 f1.
    destruct (Utils.base64url_decode f2) as [x | e] eqn:Hx;
      cbn [rbind]; [|discriminate].
    intros Hnew.
    apply KeyFacts.V2Local_new_ok in Hnew as [-> Hlen].
    exists f2, rest, x. auto.
Qed.

(** X7.  Whatever string it is given, [V2Public.from_paserk] returns a key
    only when the first fragment is "k2", the second "public" or "secret"
    and the third decodes to 32 bytes; the key holds a public key object in
    the first case and a private one in the second, made of these bytes. *)
Theorem public_from_paserk_sound (paserk : str) (self : V2Public.t) :
  V2Public.from_paserk paserk = Ok self ->
  exists f1 f2 rest x k,
    Utils.split "." paserk = "k2"%string :: f1 :: f2 :: rest
    /\ Utils.base64url_decode f2 = Ok x
    /\ length x = 32
    /\ ((f1 = "public"%string /\ k = Ed25519PublicKey x)
        \/ (f1 = "secret"%string /\ k = Ed25519PrivateKey x))
    /\ self = V2Public.mk 2 "public" (b "v2.public.") k 64.
Proof.
  unfold V2Public.from_paserk.
  destruct (Utils.split "." paserk) as [|f0 [|f1 [|f2 rest]]];
    cbn [Utils.item nth_error rbind]; try discriminate.
  - destruct (f0 =? "k2")%string; discriminate.
  - destruct (f0 =? "k2")%string; cbn [negb]; [|discriminate].
    destruct (f1 =? "public")%string; [discriminate|].
    destruct (f1 =? "secret")%string; discriminate.
  - destruct (f0 =? "k2")%string eqn:E0; cbn [negb]; [|discriminate].
    apply String.eqb_eq in E0. subst f0.
    destruct (f1 =? "public")%string eqn:E1.
    + apply String.eqb_eq in E1. subst f1.
      destruct (Utils.base64url_decode f2) as [x | e] eqn:Hx;
        cbn [rbind]; [|discriminate].
      unfold from_public_bytes.
      destruct (length x =? 32)%nat eqn:El; cbn [rbind]; [|discriminate].
      apply Nat.eqb_eq in El. intros Hnew.
      apply KeyFacts.V2Public_new_ok in Hnew as (k & [= <-] & ->).
      exists "public"%string, f2, rest, x, (Ed25519PublicKey x).
      repeat split; auto.
    + destruct (f1 =? "secret")%string eqn:E2; [|discriminate].
      apply String.eqb_eq in E2. subst f1.
      destruct (Utils.base64url_decode f2) as [x | e] eqn:Hx;
        cbn [rbind]; [|discriminate].
      unfold from_private_bytes.
      destruct (length x =? 32)%nat eqn:El; cbn [rbind]; [|discriminate].
      apply Nat.eqb_eq in El. intros Hnew.
      apply KeyFacts.V2Public_new_ok in Hnew as (k & [= <-] & ->).
      exists "secret"%string, f2, rest, x, (Ed25519PrivateKey x).
      repeat split; auto.
Qed.

(** X8.  On a string that is not a PASERK of its kind [V2Local.from_paserk]
    raises ValueError for a wrong version, whatever follows it, and for a
    wrong type; but when the version, or the version and the type, are all
    the string holds, the missing fragment is an IndexError. *)
Theorem local_from_paserk_malformed :
  (forall s t : str,
      no_dot (list_byte_of_string s) -> s <> "k2"%string ->
      V2Local.from_paserk s
      = Raise (ValueError "Invalid PASERK version for a v2.local key.")
      /\ V2Local.from_paserk (s ++ String "." t)%string
         = Raise (ValueError "Invalid PASERK version for a v2.local key."))
  /\ (forall s t : str,
         no_dot (list_byte_of_string s) -> s <> "local"%string ->
         V2Local.from_paserk ("k2." ++ s)%string
         = Raise (ValueError "Invalid PASERK type for a v2.local key.")
         /\ V2Local.from_paserk ("k2." ++ s ++ String "." t)%string
            = Raise (ValueError "Invalid PASERK type for a v2.local key."))
  /\ V2Local.from_paserk "k2"
     = Raise (IndexError "list index out of range")
  /\ V2Local.from_paserk "k2.local"
     = Raise (IndexError "list index out of range").
Proof.
  split; [|split; [|split; reflexivity]].
  - intros s t Hs Hne. apply String.eqb_neq in Hne.
    unfold V2Local.from_paserk.
    rewrite (PaserkStrings.split_plain s Hs), (PaserkStrings.split_first s t Hs).
    cbn [Utils.item nth_error rbind]. now rewrite Hne.
  - intros s t Hs Hne. apply String.eqb_neq in Hne.
    unfold V2Local.from_paserk.
    change ("k2." ++ s)%string with ("k2" ++ String "." s)%string.
    change ("k2." ++ s ++ String "." t)%string
      with ("k2" ++ String "." (s ++ String "." t))%string.
    rewrite !(PaserkStrings.split_first "k2")
      by (now apply FramingFacts.no_dot_literal).
    rewrite (PaserkStrings.split_plain s Hs), (PaserkStrings.split_first s t Hs).
    cbn [Utils.item nth_error rbind String.eqb Ascii.eqb Bool.eqb negb andb].
    now rewrite Hne.
Qed.

(** X9.  [V2Public.from_paserk] likewise: ValueError for a wrong version,
    ValueError for a type that is neither "public" nor "secret", IndexError
    when the material is missing after either type. *)
Theorem public_from_paserk_malformed :
  (forall s t : str,
      no_dot (list_byte_of_string s) -> s <> "k2"%string ->
      V2Public.from_paserk s
      = Raise (ValueError "Invalid PASERK version for a v2.public key.")
      /\ V2Public.from_paserk (s ++ String "." t)%string
         = Raise (ValueError "Invalid PASERK version for a v2.public key."))
  /\ (forall s t : str,
         no_dot (list_byte_of_string s) ->
         s <> "public"%string -> s <> "secret"%string ->
         V2Public.from_paserk ("k2." ++ s)%string
         = Raise (ValueError "Invalid PASERK type for a v2.public key.")
         /\ V2Public.from_paserk ("k2." ++ s ++ String "." t)%string
            = Raise (ValueError "Invalid PASERK type for a v2.public key."))
  /\ V2Public.from_paserk "k2"
     = Raise (IndexError "list index out of range")
  /\ V2Public.from_paserk "k2.public"
     = Raise (IndexError "list index out of range")
  /\ V2Public.from_paserk "k2.secret"
     = Raise (IndexError "list index out of range").
Proof.
  split; [|split; [|repeat split; reflexivity]].
  - intros s t Hs Hne. apply String.eqb_neq in Hne.
    unfold V2Public.from_paserk.
    rewrite (PaserkStrings.split_plain s Hs), (PaserkStrings.split_first s t Hs).
    cbn [Utils.item nth_error rbind]. now rewrite Hne.
  - intros s t Hs Hne1 Hne2. apply String.eqb_neq in Hne1, Hne2.
    unfold V2Public.from_paserk.
    change ("k2." ++ s)%string with ("k2" ++ String "." s)%string.
    change ("k2." ++ s ++ String "." t)%string
      with ("k2" ++ String "." (s ++ String "." t))%string.
    rewrite !(PaserkStrings.split_first "k2")
      by (now apply FramingFacts.no_dot_literal).
    rewrite (PaserkStrings.split_plain s Hs), (PaserkStrings.split_first s t Hs).
    cbn [Utils.item nth_error rbind String.eqb Ascii.eqb Bool.eqb negb andb].
    now rewrite Hne1, Hne2.
Qed.

(** X10.  What [V2Public.to_paserk] writes, [V2Local.from_paserk] refuses:
    the PASERK of a public or private key is never read as a local key,
    whatever its bytes. *)
Theorem local_from_paserk_refuses_public (self : V2Public.t) :
  V2Local.from_paserk (V2Public.to_paserk self)
  = Raise (ValueError "Invalid PASERK type for a v2.local key.").
Proof.
  destruct (PaserkStrings.to_paserk_fragments self) as (type & Ht & Hs).
  unfold V2Local.from_paserk. rewrite Hs.
  cbn [Utils.item nth_error rbind].
  destruct Ht as [-> | ->]; reflexivity.
Qed.

Section IdentifierProperties.
Context {P : Primitives}.

(** X11.  A key identifier is not a key: whatever [to_paserk_id] returns,
    for a local, a public or a private key, both [from_paserk] refuse it
    with the ValueError of a wrong type. *)
Theorem identifiers_are_not_keys
        (l : V2Local.t) (p : V2Public.t) (w : World) (i : str) :
  fst (V2Local.to_paserk_id l w) = Ok i
  \/ fst (V2Public.to_paserk_id p w) = Ok i ->
  V2Local.from_paserk i
  = Raise (ValueError "Invalid PASERK type for a v2.local key.")
  /\ V2Public.from_paserk i
     = Raise (ValueError "Invalid PASERK type for a v2.public key.").
Proof.
  assert (Hid : forall type d,
             (type = b "lid" \/ type = b "pid" \/ type = b "sid") ->
             i = (string_of_list_byte (b "k2" ++ b "." ++ type ++ b ".")
                    ++ Utils.decode_utf8 (Utils.base64url_encode d))%string ->
             V2Local.from_paserk i
             = Raise (ValueError "Invalid PASERK type for a v2.local key.")
             /\ V2Public.from_paserk i
                = Raise
                    (ValueError "Invalid PASERK type for a v2.public key.")).
  { intros type d Ht ->.
    unfold V2Local.from_paserk, V2Public.from_paserk.
    rewrite PaserkStrings.id_fragments
      by (destruct Ht as [-> | [-> | ->]];
          now apply FramingFacts.no_dot_literal).
    cbn [Utils.item nth_error rbind].
    destruct Ht as [-> | [-> | ->]]; split; reflexivity. }
  intros [H | H].
  - unfold V2Local.to_paserk_id in H.
    cbv [hashlib_blake2b bind log lift ret] in H. cbn [fst] in H.
    destruct (blake2b_digest _ _ _) as [d | e]; [|discriminate].
    injection H as <-.
    apply (Hid (b "lid") d); auto.
  - unfold V2Public.to_paserk_id in H.
    cbv [hashlib_blake2b bind log lift ret] in H. cbn [fst] in H.
    destruct (blake2b_digest _ _ _) as [d | e]; [|discriminate].
    injection H as <-.
    destruct (V2Public._key p).
    + apply (Hid (b "pid") d); auto.
    + apply (Hid (b "sid") d); auto.
Qed.

End IdentifierProperties.

(** X12.  Both [from_paserk] read the first three fragments and nothing
    else: whatever follows a further dot after the material is ignored, not
    refused. *)
Theorem from_paserk_ignores_trailing_fragments (x : bytes) (junk : str) :
  let material := Utils.decode_utf8 (Utils.base64url_encode x) in
  V2Local.from_paserk ("k2.local." ++ material ++ String "." junk)%string
  = V2Local.from_paserk ("k2.local." ++ material)%string
  /\ V2Local.from_paserk ("k2.local." ++ material)%string
     = V2Local.__init__ (Bytes x)
  /\ V2Public.from_paserk ("k2.public." ++ material ++ String "." junk)%string
     = V2Public.from_paserk ("k2.public." ++ material)%string
  /\ V2Public.from_paserk ("k2.secret." ++ material ++ String "." junk)%string
     = V2Public.from_paserk ("k2.secret." ++ material)%string.
Proof.
  intros material.
  assert (Hm : no_dot (list_byte_of_string material)).
  { unfold material, Utils.decode_utf8.
    rewrite list_byte_of_string_of_list_byte.
    apply UtilsFacts.base64url_encode_no_dot. }
  assert (Hsplit : forall type : str,
             no_dot (list_byte_of_string type) ->
             Utils.split "."
               ("k2" ++ String "." (type ++ String "." material))%string
             = ["k2"%string; type; material]
             /\ Utils.split "."
                  ("k2" ++ String "."
                     (type ++ String "." (material ++ String "." junk)))%string
                = "k2"%string :: type :: material :: Utils.split "." junk).
  { intros type Ht.
    rewrite !(PaserkStrings.split_first "k2")
      by (now apply FramingFacts.no_dot_literal).
    rewrite !(PaserkStrings.split_first type) by exact Ht.
    rewrite (PaserkStrings.split_plain material Hm).
    rewrite (PaserkStrings.split_first material junk Hm).
    split; reflexivity. }
  destruct (Hsplit "local"%string
              (FramingFacts.no_dot_literal (b "local") eq_refl))
    as [Hl Hl'].
  destruct (Hsplit "public"%string
              (FramingFacts.no_dot_literal (b "public") eq_refl))
    as [Hp Hp'].
  destruct (Hsplit "secret"%string
              (FramingFacts.no_dot_literal (b "secret") eq_refl))
    as [Hs Hs'].
  cbn [String.append] in Hl, Hl', Hp, Hp', Hs, Hs'.
  unfold V2Local.from_paserk, V2Public.from_paserk.
  cbn [String.append].
  rewrite Hl, Hl', Hp, Hp', Hs, Hs'.
  cbn [Utils.item nth_error rbind String.eqb Ascii.eqb Bool.eqb negb andb].
  unfold material. rewrite UtilsFacts.base64url_decode_encode.
  repeat split; reflexivity.
Qed.

(** X13.  [V2Public.to_paserk] tells keys apart: two keys built by the
    constructor that are written as the same PASERK string are the same
    key, of the same kind and with the same bytes. *)
Theorem public_to_paserk_injective
        (o1 o2 : py_object) (k1 k2 : V2Public.t) :
  V2Public.__init__ o1 = Ok k1 ->
  V2Public.__init__ o2 = Ok k2 ->
  V2Public.to_paserk k1 = V2Public.to_paserk k2 ->
  k1 = k2.
Proof.
  intros H1 H2 Heq.
  apply KeyFacts.V2Public_new_ok in H1 as (e1 & -> & ->).
  apply KeyFacts.V2Public_new_ok in H2 as (e2 & -> & ->).
  f_equal.
  destruct (PaserkStrings.to_paserk_fragments
              (V2Public.mk 2 "public" (b "v2.public.") e1 64))
    as (t1 & Ht1 & Hs1).
  destruct (PaserkStrings.to_paserk_fragments
              (V2Public.mk 2 "public" (b "v2.public.") e2 64))
    as (t2 & Ht2 & Hs2).
  rewrite Heq, Hs2 in Hs1. cbn [V2Public._key] in Hs1.
  injection Hs1 as Ht Hraw.
  assert (Hinj : forall x y : bytes,
             Utils.decode_utf8 (Utils.base64url_encode x)
             = Utils.decode_utf8 (Utils.base64url_encode y) -> x = y).
  { intros x y H. apply (f_equal Utils.base64url_decode) in H.
    rewrite !UtilsFacts.base64url_decode_encode in H. now injection H. }
  apply Hinj in Hraw.
  unfold V2Public.to_paserk in Heq. cbn [V2Public._key] in Heq.
  destruct e1 as [r1 | s1], e2 as [r2 | s2]; cbn in Hraw; subst;
    try reflexivity; discriminate Heq.
Qed.

Section IdentifierLength.
Context {P : Primitives}.

(** X14.  Where the hash keeps its promise, [to_paserk_id] cannot fail, and
    every identifier is 51 characters long: the 7 of the prefix and the 44
    that 33 bytes make in base64url, without padding. *)
Theorem paserk_id_has_51_characters
        (l : V2Local.t) (p : V2Public.t) (w : World) :
  Blake2bTotal P ->
  (exists i, fst (V2Local.to_paserk_id l w) = Ok i /\ String.length i = 51)
  /\ (exists i,
         fst (V2Public.to_paserk_id p w) = Ok i /\ String.length i = 51).
Proof.
  intros Hb.
  assert (Hlen : forall (h : str) (d : bytes),
             String.length h = 7 -> length d = 33 ->
             String.length
               (h ++ Utils.decode_utf8 (Utils.base64url_encode d))%string
             = 51).
  { intros h d Hh Hd.
    rewrite PaserkStrings.length_append, Hh.
    unfold Utils.decode_utf8.
    rewrite PaserkStrings.length_string_of_list_byte.
    pose proof (PaserkStrings.length_base64url_encode d) as H.
    rewrite Hd in H. lia. }
  split.
  - unfold V2Local.to_paserk_id.
    cbv [hashlib_blake2b bind log lift ret]. cbn [fst].
    destruct (Hb [] 33
                (Utils.encode_utf8 ("k2.lid." ++ LocalKey.to_paserk l)%string))
      as (d & Hd & Hl); [simpl; lia | lia |].
    rewrite Hd. eexists. split; [reflexivity|]. now apply Hlen.
  - unfold V2Public.to_paserk_id.
    cbv [hashlib_blake2b bind log lift ret]. cbn [fst].
    destruct (V2Public._key p).
    + destruct (Hb [] 33
                  (Utils.encode_utf8
                     ("k2.pid." ++ V2Public.to_paserk p)%string))
        as (d & Hd & Hl); [simpl; lia | lia |].
      rewrite Hd. eexists. split; [reflexivity|]. now apply Hlen.
    + destruct (Hb [] 33
                  (Utils.encode_utf8
                     ("k2.sid." ++ V2Public.to_paserk p)%string))
        as (d & Hd & Hl); [simpl; lia | lia |].
      rewrite Hd. eexists. split; [reflexivity|]. now apply Hlen.
Qed.

End IdentifierLength.

(** * Further runs *)

Module FurtherRuns.

Import Samples.

(** X1 on a seed of one byte. *)
Lemma encrypt_raises_only_three_errors_witness :
  fst (V2Local.encrypt (P := Standin.primitives) zeros hello [] [] [x2a]
         Standin.world0)
  = Raise (ValueError "nonce must be 24 bytes long.")
  /\ snd (V2Local.encrypt (P := Standin.primitives) zeros hello [] [] [x2a]
            Standin.world0)
     = Standin.world0.
Proof.
  assert (H : fst (V2Local.encrypt (P := Standin.primitives) zeros hello []
                     [] [x2a] Standin.world0)
              = Raise (ValueError "nonce must be 24 bytes long."))
    by reflexivity.
  split; [exact H|].
  destruct (@encrypt_raises_only_three_errors Standin.primitives
              zeros hello [] [] [x2a] Standin.world0 _ H)
    as [(_ & _ & _ & Hw)
       | [((e' & He & _) & _) | (d & _ & (e' & He & _) & _)]];
    [exact Hw | discriminate He | discriminate He].
Defined.

(** X3 on a payload of ten bytes. *)
Lemma decrypt_short_payload_witness :
  length (repeat x01 10) < 40
  /\ V2Local.decrypt (P := Standin.primitives) zeros (repeat x01 10) [] []
       Standin.world0
     = (Raise (From (DecryptError "Failed to decrypt.")
                 (LibraryError "ChaCha20_Poly1305: bad key or nonce length")),
        append_call Standin.world0
          [ChaCha20Poly1305Open (repeat x00 32) (repeat x01 10)
             (Utils.pae [b "v2.local."; repeat x01 10; []]) []
             (repeat x01 10)]).
Proof.
  assert (H : length (repeat x01 10) < 40)
    by (rewrite repeat_length; repeat constructor).
  split; [exact H|].
  exact (proj1 (@decrypt_short_payload Standin.primitives zeros
                  (repeat x01 10) [] [] Standin.world0 H)).
Defined.

(** X4 on the sample key pair and the payload b"Hello world!". *)
Lemma signature_verifies_under_both_keys_witness :
  exists sig,
    fst (V2Public.sign (P := Standin.primitives) signer hello [] []
           Standin.world0) = Ok sig
    /\ length sig = 64
    /\ (forall w',
           fst (V2Public.verify (P := Standin.primitives) signer
                  (hello ++ sig) [] [] w')
           = Ok hello)
    /\ (forall w',
           fst (V2Public.verify (P := Standin.primitives) verifier
                  (hello ++ sig) [] [] w')
           = Ok hello).
Proof.
  apply (@signature_verifies_under_both_keys Standin.primitives
           (repeat x07 32) signer verifier hello [] [] Standin.world0
           StandinFacts.sign_total StandinFacts.verify_sign).
  - reflexivity.
  - reflexivity.
  - reflexivity.
  - discriminate.
Defined.

(** X5 on payload bytes of length 64. *)
Lemma verify_outcomes_witness :
  V2Public.__init__ (Ed25519 (Ed25519PrivateKey (repeat x07 32))) = Ok signer
  /\ forall e,
      fst (V2Public.verify (P := Standin.primitives) signer (repeat x01 64)
             [] [] Standin.world0)
      = Raise e ->
      (e = ValueError "Invalid payload."
       /\ length (repeat x01 64) <= 64
       /\ snd (V2Public.verify (P := Standin.primitives) signer
                 (repeat x01 64) [] [] Standin.world0)
          = Standin.world0)
      \/ (e = From (VerifyError "Failed to verify.")
                 (LibraryError "InvalidSignature")
          /\ 64 < length (repeat x01 64)).
Proof.
  split; [reflexivity|].
  exact (proj2 (@verify_outcomes Standin.primitives
                  (Ed25519 (Ed25519PrivateKey (repeat x07 32)))
                  signer (repeat x01 64) [] [] Standin.world0 eq_refl)).
Defined.

(** X6 on the PASERK of the key of 32 zero bytes. *)
Lemma local_from_paserk_sound_witness :
  V2Local.from_paserk "k2.local.AAAAAAAAAAAAAAAAAAAAAAAAAAAAAAAAAAAAAAAAAAA"
  = Ok zeros
  /\ exists f2 rest x,
      Utils.split "."
        "k2.local.AAAAAAAAAAAAAAAAAAAAAAAAAAAAAAAAAAAAAAAAAAA"
      = "k2"%string :: "local"%string :: f2 :: rest
      /\ Utils.base64url_decode f2 = Ok x
      /\ length x = 32
      /\ zeros = KeyInterface.mk 2 "local" (b "v2.local.") x.
Proof.
  assert (H : V2Local.from_paserk
                "k2.local.AAAAAAAAAAAAAAAAAAAAAAAAAAAAAAAAAAAAAAAAAAA"
              = Ok zeros) by reflexivity.
  split; [exact H|].
  exact (@local_from_paserk_sound _ _ H).
Defined.

(** X7 on the PASERK of the sample public key. *)
Lemma public_from_paserk_sound_witness :
  V2Public.from_paserk (V2Public.to_paserk verifier) = Ok verifier
  /\ exists f1 f2 rest x k,
      Utils.split "." (V2Public.to_paserk verifier)
      = "k2"%string :: f1 :: f2 :: rest
      /\ Utils.base64url_decode f2 = Ok x
      /\ length x = 32
      /\ ((f1 = "public"%string /\ k = Ed25519PublicKey x)
          \/ (f1 = "secret"%string /\ k = Ed25519PrivateKey x))
      /\ verifier = V2Public.mk 2 "public" (b "v2.public.") k 64.
Proof.
  assert (H : V2Public.from_paserk (V2Public.to_paserk verifier)
              = Ok verifier) by reflexivity.
  split; [exact H|].
  exact (@public_from_paserk_sound _ _ H).
Defined.

(** X8 on a PASERK of version 3. *)
Lemma local_from_paserk_malformed_witness :
  no_dot (list_byte_of_string "k3") /\ "k3"%string <> "k2"%string
  /\ V2Local.from_paserk "k3.local.AAAA"
     = Raise (ValueError "Invalid PASERK version for a v2.local key.").
Proof.
  assert (H1 : no_dot (list_byte_of_string "k3"))
    by (now apply FramingFacts.no_dot_literal).
  assert (H2 : "k3"%string <> "k2"%string) by discriminate.
  split; [exact H1|]. split; [exact H2|].
  exact (proj2 (proj1 local_from_paserk_malformed "k3"%string
                  "local.AAAA"%string H1 H2)).
Defined.

(** X9 on a PASERK of type "local". *)
Lemma public_from_paserk_malformed_witness :
  no_dot (list_byte_of_string "local")
  /\ V2Public.from_paserk "k2.local.AAAA"
     = Raise (ValueError "Invalid PASERK type for a v2.public key.").
Proof.
  assert (H1 : no_dot (list_byte_of_string "local"))
    by (now apply FramingFacts.no_dot_literal).
  split; [exact H1|].
  refine (proj2 (proj1 (proj2 public_from_paserk_malformed) "local"%string
                   "AAAA"%string H1 _ _)); discriminate.
Defined.

(** X11 on the identifier of the key of 32 zero bytes. *)
Lemma identifiers_are_not_keys_witness :
  exists i,
    fst (V2Local.to_paserk_id (P := Standin.primitives) zeros
           Standin.world0) = Ok i
    /\ V2Local.from_paserk i
       = Raise (ValueError "Invalid PASERK type for a v2.local key.")
    /\ V2Public.from_paserk i
       = Raise (ValueError "Invalid PASERK type for a v2.public key.").
Proof.
  eexists. split; [reflexivity|].
  apply (@identifiers_are_not_keys Standin.primitives zeros verifier
           Standin.world0).
  left. reflexivity.
Defined.

(** X13 on the sample private key. *)
Lemma public_to_paserk_injective_witness :
  V2Public.to_paserk signer = V2Public.to_paserk signer
  /\ signer = signer.
Proof.
  split; [reflexivity|].
  exact (@public_to_paserk_injective
           (Ed25519 (Ed25519PrivateKey (repeat x07 32)))
           (Ed25519 (Ed25519PrivateKey (repeat x07 32)))
           signer signer eq_refl eq_refl eq_refl).
Defined.

(** X14 on the sample local key and the sample public key. *)
Lemma paserk_id_has_51_characters_witness :
  (exists i,
      fst (V2Local.to_paserk_id (P := Standin.primitives) zeros
             Standin.world0) = Ok i
      /\ String.length i = 51)
  /\ (exists i,
         fst (V2Public.to_paserk_id (P := Standin.primitives) verifier
                Standin.world0) = Ok i
         /\ String.length i = 51).
Proof.
  exact (@paserk_id_has_51_characters Standin.primitives zeros verifier
           Standin.world0 StandinFacts.blake2b_total).
Defined.

End FurtherRuns.
